(** * File Tree Concatenator: a shallow embedding of [context_creator.py]

    The program walks a directory tree with [os.walk], filters directories
    and files by name, and appends the content of every surviving file to
    one output file.  The embedding follows the source line by line:

    - a Python [str] is the [string] of its bytes: a file name is the
      bytes of the directory entry, which Python decodes with
      [surrogateescape], so that the strict UTF-8 encoder of the output
      stream takes it exactly when the bytes are valid UTF-8;
    - the counters are [nat]s;
    - the output file and the console are fields of an explicit [state]
      that is threaded through the two loops;
    - exceptions are the left injection of a small error monad;
    - the file system is a finite tree of directory listings together with
      an oracle that answers every attempt to read a file; the answer may
      depend on what the run has written so far, as it does when the file
      read is the output file itself.

    The operations of the source that can fail are modelled as such:
    opening the output path and listing a root that holds a NUL character
    (the exception reaches the caller), reading a source file (the
    exception is caught by the [try]), [relpath] on an empty path,
    printing a line the console cannot encode and writing a text that is
    not valid UTF-8 (the exception reaches the caller).  The device the
    output is written to is taken to have room. *)

From Stdlib Require Import String Ascii List Arith Bool Lia DecimalString.
Import ListNotations.

Local Open Scope list_scope.
Local Open Scope string_scope.

Set Implicit Arguments.

(* ------------------------------------------------------------------ *)
(** ** Python string operations used by the program *)

Module PyStr.

(** [s.startswith(p)] *)
Definition startswith (s p : string) : bool := String.prefix p s.

(** [p in s] for strings: [p] occurs as a contiguous block of [s]. *)
Fixpoint contains (p s : string) : bool :=
  String.prefix p s ||
  match s with
  | EmptyString => false
  | String _ s' => contains p s'
  end.

(** [s.endswith(p)] *)
Definition endswith (s p : string) : bool :=
  Nat.leb (String.length p) (String.length s) &&
  String.eqb (String.substring (String.length s - String.length p)
                               (String.length p) s) p.

(** [s * n] *)
Fixpoint mul (s : string) (n : nat) : string :=
  match n with
  | O => ""
  | S k => s ++ mul s k
  end.

(** [x in l] for a list of strings. *)
Definition mem (x : string) (l : list string) : bool :=
  existsb (String.eqb x) l.

(** [str(n)] for a non-negative integer. *)
Definition of_nat (n : nat) : string :=
  NilZero.string_of_uint (Nat.to_uint n).

(** [s.lstrip(c)] for a one-character [c]. *)
Fixpoint lstrip (c : ascii) (s : string) : string :=
  match s with
  | EmptyString => EmptyString
  | String a s' => if Ascii.eqb a c then lstrip c s' else s
  end.

(** [s.split(c)] for a one-character separator: never an empty list. *)
Fixpoint split (c : ascii) (s : string) : list string :=
  match s with
  | EmptyString => [EmptyString]
  | String a s' =>
      if Ascii.eqb a c then EmptyString :: split c s'
      else match split c s' with
           | [] => [String a EmptyString]
           | w :: ws => String a w :: ws
           end
  end.

(** the truth value of a string: [bool(s)] *)
Definition truthy (s : string) : bool :=
  match s with EmptyString => false | _ => true end.

End PyStr.

(* ------------------------------------------------------------------ *)
(** ** The encoder of the output stream

    The stream is opened with [encoding="utf-8"] and the default error
    handler: writing a text raises [UnicodeEncodeError] unless its bytes
    are well-formed UTF-8 (RFC 3629). *)

Module Utf8.

(** What the next byte has to be. *)
Inductive expect : Type :=
| Lead       (* the first byte of a character *)
| Tail1      (* one byte in 80..BF *)
| Tail2      (* two bytes in 80..BF *)
| Tail3      (* three bytes in 80..BF *)
| AfterE0    (* a byte in A0..BF, then one in 80..BF *)
| AfterED    (* a byte in 80..9F, then one in 80..BF *)
| AfterF0    (* a byte in 90..BF, then two in 80..BF *)
| AfterF4.   (* a byte in 80..8F, then two in 80..BF *)

Definition between (lo hi b : nat) : bool := Nat.leb lo b && Nat.leb b hi.

Definition step (q : expect) (a : ascii) : option expect :=
  let b := nat_of_ascii a in
  match q with
  | Lead =>
      if Nat.ltb b 128 then Some Lead
      else if between 194 223 b then Some Tail1
      else if Nat.eqb b 224 then Some AfterE0
      else if between 225 236 b || between 238 239 b then Some Tail2
      else if Nat.eqb b 237 then Some AfterED
      else if Nat.eqb b 240 then Some AfterF0
      else if between 241 243 b then Some Tail3
      else if Nat.eqb b 244 then Some AfterF4
      else None
  | Tail1 => if between 128 191 b then Some Lead else None
  | Tail2 => if between 128 191 b then Some Tail1 else None
  | Tail3 => if between 128 191 b then Some Tail2 else None
  | AfterE0 => if between 160 191 b then Some Tail1 else None
  | AfterED => if between 128 159 b then Some Tail1 else None
  | AfterF0 => if between 144 191 b then Some Tail2 else None
  | AfterF4 => if between 128 143 b then Some Tail2 else None
  end.

Fixpoint scan (q : expect) (s : string) : bool :=
  match s with
  | EmptyString => match q with Lead => true | _ => false end
  | String a s' =>
      match step q a with
      | Some q' => scan q' s'
      | None => false
      end
  end.

(** The encoder takes the text. *)
Definition valid (s : string) : bool := scan Lead s.

End Utf8.

(* ------------------------------------------------------------------ *)
(** ** The part of [posixpath] the program calls *)

Module PosixPath.

Definition sep : string := "/".
Definition sep_char : ascii := "/"%char.
Definition curdir : string := ".".
Definition pardir : string := "..".

(** [os.path.join(a, b)] *)
Definition join (a b : string) : string :=
  if PyStr.startswith b sep then b
  else if negb (PyStr.truthy a) || PyStr.endswith a sep then a ++ b
  else a ++ sep ++ b.

(** [os.path.basename(p)]: what follows the last separator. *)
Definition basename (p : string) : string :=
  last (PyStr.split sep_char p) EmptyString.

Definition isabs (p : string) : bool := PyStr.startswith p sep.

(** The loop of [normpath] over the components of the path. [abs] says
    whether the path starts with a separator; [acc] is [new_comps]. *)
Fixpoint norm_comps (abs : bool) (comps acc : list string) : list string :=
  match comps with
  | [] => acc
  | comp :: rest =>
      if String.eqb comp "" || String.eqb comp curdir
      then norm_comps abs rest acc
      else if negb (String.eqb comp pardir)
              || (negb abs && match acc with [] => true | _ => false end)
              || (match acc with
                  | [] => false
                  | _ => String.eqb (last acc "") pardir
                  end)
      then norm_comps abs rest (acc ++ [comp])
      else norm_comps abs rest (removelast acc)
  end.

(** The number of leading separators [normpath] keeps: POSIX lets a path
    that starts with exactly two slashes keep both. *)
Definition initial_slashes (p : string) : nat :=
  if PyStr.startswith p sep then
    if PyStr.startswith p "//" && negb (PyStr.startswith p "///")
    then 2 else 1
  else 0.

(** [os.path.normpath(p)] *)
Definition normpath (p : string) : string :=
  if negb (PyStr.truthy p) then curdir
  else
    let n := initial_slashes p in
    let comps := norm_comps (Nat.ltb 0 n) (PyStr.split sep_char p) [] in
    let path := PyStr.mul sep n ++ String.concat sep comps in
    if PyStr.truthy path then path else curdir.

(** [os.path.abspath(p)] in a process whose working directory is [cwd]. *)
Definition abspath (cwd p : string) : string :=
  normpath (if isabs p then p else join cwd p).

(** [len(commonprefix([l1, l2]))] for two lists of components. *)
Fixpoint common_len (l1 l2 : list string) : nat :=
  match l1, l2 with
  | x :: l1', y :: l2' => if String.eqb x y then S (common_len l1' l2') else 0
  | _, _ => 0
  end.

Definition tail_list (cwd p : string) : list string :=
  let t := PyStr.lstrip sep_char (abspath cwd p) in
  if PyStr.truthy t then PyStr.split sep_char t else [].

(** [os.path.relpath(path, start)]; [None] stands for the [ValueError]
    raised for an empty [path]. *)
Definition relpath (cwd path start : string) : option string :=
  if negb (PyStr.truthy path) then None
  else
    let start_list := tail_list cwd start in
    let path_list := tail_list cwd path in
    let i := common_len start_list path_list in
    let rel_list :=
      (repeat pardir (List.length start_list - i) ++ skipn i path_list)%list in
    match rel_list with
    | [] => Some curdir
    | _ => Some (String.concat sep rel_list)
    end.

End PosixPath.

(* ------------------------------------------------------------------ *)
(** ** Exceptions *)

Inductive exn : Type :=
| OSError (msg : string)
| ValueError (msg : string)
| UnicodeEncodeError (object : string).   (* the text that was refused *)

(** A computation either raises or returns. *)
Definition M (A : Type) : Type := (exn + A)%type.

Definition ret {A : Type} (x : A) : M A := inr x.
Definition raise {A : Type} (e : exn) : M A := inl e.
Definition bind {A B : Type} (m : M A) (k : A -> M B) : M B :=
  match m with
  | inl e => inl e
  | inr x => k x
  end.

Notation "x <- m ;; k" := (bind m (fun x => k))
  (at level 61, m at next level, right associativity).

(** A [for] loop whose body may raise: the exception leaves the loop. *)
Section ForEach.
Context {A S : Type} (body : A -> S -> M S).

Fixpoint for_each (l : list A) (s : S) : M S :=
  match l with
  | [] => ret s
  | x :: l' => s' <- body x s ;; for_each l' s'
  end.
End ForEach.

(* ------------------------------------------------------------------ *)
(** ** The file system the run sees *)

(** What [os.scandir] reports for a directory: the names of its plain
    files and its subdirectories, each with what lies below it.
    [NoListing] is a directory entry the walk does not enter: listing it
    fails (the path is gone or unreadable), or it is a symbolic link. *)
Unset Elimination Schemes.
Inductive tree : Type :=
| Dir (files : list string) (subdirs : list (string * tree))
| NoListing.
Set Elimination Schemes.

(** What [open(path).read()] gives: the text decoded with
    [errors="ignore"], or [str(error)] of the exception raised.  Neither
    holds a lone surrogate: the encoder of the output stream takes both. *)
Definition read_result : Type := (string + string)%type.

Record world : Type := {
  (** the directory tree found at [root_directory] *)
  fs : tree;
  (** the answer to reading the file at a path, when the run has written
      the given text to its output so far *)
  read_file : string -> string -> read_result;
  (** the exception that opening that path for writing raises, if any *)
  open_for_writing : string -> option exn;
  (** [os.getcwd()] *)
  getcwd : string;
  (** whether [sys.stdout] can encode a line *)
  stdout_encodes : string -> bool
}.

(* ------------------------------------------------------------------ *)
(** ** [os.walk(top)], top-down, with its defaults

    The generator yields [(top, dirs, nondirs)] and, when it is resumed,
    walks into the names that are then in [dirs]: the consumer edits that
    list in place.  The consumer is therefore a parameter [body] that
    receives the triple and hands back the content it left in [dirs].
    Each name is listed again through the file system, by name; a name
    that is not there yields nothing. *)

Section Listing.
Context {R : Type} (enter : tree -> R) (absent : R) (dirname : string).

(** Listing the path [join(top, dirname)] again: [enter] what the
    first entry of that name holds. *)
Fixpoint scandir (entries : list (string * tree)) : R :=
  match entries with
  | [] => absent
  | (name, t') :: entries' =>
      if String.eqb name dirname then enter t' else scandir entries'
  end.
End Listing.

Fixpoint os_walk {S : Type}
  (body : string -> list string -> list string -> S -> M (list string * S))
  (top : string) (t : tree) (s : S) : M S :=
  match t with
  | NoListing => ret s
  | Dir nondirs entries =>
      r <- body top (map fst entries) nondirs s ;;
      for_each
        (fun dirname s =>
           scandir (fun t' => os_walk body (PosixPath.join top dirname) t' s)
                   (ret s) dirname entries)
        (fst r) (snd r)
  end.

(* ------------------------------------------------------------------ *)
(** ** The program *)

(** The keyword arguments, as the caller passes them. *)
Record arguments : Type := {
  arg_root_directory : string;
  arg_output_path : string;
  arg_excluded_extensions : option (list string);
  arg_excluded_directories : option (list string);
  arg_included_directories : option (list string);
  arg_included_files : option (list string);
  arg_excluded_file_patterns : option (list string)
}.

(** The local variables of the same names once the defaults are in. *)
Record config : Type := {
  root_directory : string;
  output_path : string;
  excluded_extensions : list string;
  excluded_directories : list string;
  included_directories : list string;
  included_files : list string;
  excluded_file_patterns : list string
}.

(** [x or []] *)
Definition or_empty (x : option (list string)) : list string :=
  match x with
  | Some l => l
  | None => []
  end.

Definition defaults (a : arguments) : config := {|
  root_directory := arg_root_directory a;
  output_path := arg_output_path a;
  excluded_extensions := or_empty (arg_excluded_extensions a);
  excluded_directories := or_empty (arg_excluded_directories a);
  included_directories := or_empty (arg_included_directories a);
  included_files := or_empty (arg_included_files a);
  excluded_file_patterns := or_empty (arg_excluded_file_patterns a)
|}.

(** Everything the run changes. *)
Record state : Type := {
  output : string;            (* the text written to the output file *)
  stdout : list string;       (* the lines printed, oldest first *)
  files_processed : nat;
  files_skipped : nat
}.

Definition initial : state :=
  {| output := ""; stdout := []; files_processed := 0; files_skipped := 0 |}.

Definition write (text : string) (st : state) : state :=
  {| output := output st ++ text; stdout := stdout st;
     files_processed := files_processed st;
     files_skipped := files_skipped st |}.

Definition print (line : string) (st : state) : state :=
  {| output := output st; stdout := (stdout st ++ [line])%list;
     files_processed := files_processed st;
     files_skipped := files_skipped st |}.

Definition count_processed (st : state) : state :=
  {| output := output st; stdout := stdout st;
     files_processed := files_processed st + 1;
     files_skipped := files_skipped st |}.

Definition count_skipped (st : state) : state :=
  {| output := output st; stdout := stdout st;
     files_processed := files_processed st;
     files_skipped := files_skipped st + 1 |}.

(** The newline character. *)
Definition nl : string := String (ascii_of_nat 10) "".

(** The NUL character. *)
Definition nul : string := String (ascii_of_nat 0) "".

(** [output.write(text)]: the stream encodes the text as UTF-8 before it
    keeps it. *)
Definition output_write (text : string) (st : state) : M state :=
  if Utf8.valid text then ret (write text st)
  else raise (UnicodeEncodeError text).

(** [print(line)] *)
Definition console_print (w : world) (line : string) (st : state) : M state :=
  if stdout_encodes w line then ret (print line st)
  else raise (UnicodeEncodeError line).

(** The truth value of a list. *)
Definition nonempty {A : Type} (l : list A) : bool :=
  match l with [] => false | _ => true end.

(** The three filters of the inner loop. *)
Definition extension_excluded (c : config) (filename : string) : bool :=
  existsb (fun ext => PyStr.endswith filename ("." ++ ext))
          (excluded_extensions c).

Definition pattern_excluded (c : config) (filename : string) : bool :=
  existsb (fun pattern => PyStr.contains pattern filename)
          (excluded_file_patterns c).

Definition not_included (c : config) (filename : string) : bool :=
  nonempty (included_files c) &&
  negb (existsb (fun pattern => PyStr.contains pattern filename)
                (included_files c)).

(** What the [try] statement does with the answer of the read.  The two
    texts written here come from the decoder and from [str(error)]; the
    encoder takes them (see [read_result]), so these writes do not raise. *)
Definition copy_content (r : read_result) (st : state) : state :=
  match r with
  | inl content => count_processed (write content st)
  | inr error =>
      count_skipped
        (write ("[ERROR: Could not read file - " ++ error ++ "]" ++ nl) st)
  end.

(** Lines 89 to 104: the file passed the filters.  The file is read
    after its header has been written. *)
Definition emit (w : world) (file_path relative_path : string) (st : state)
  : M state :=
  st <- console_print w ("Processing: " ++ relative_path) st ;;
  st <- output_write (PyStr.mul "=" 60 ++ nl) st ;;
  st <- output_write ("File: " ++ relative_path ++ nl) st ;;
  st <- output_write (PyStr.mul "=" 60 ++ nl) st ;;
  let st := copy_content (read_file w file_path (output st)) st in
  output_write (nl ++ nl) st.

(** One turn of [for filename in files]. *)
Definition process_file (c : config) (w : world)
  (current_dir filename : string) (st : state) : M state :=
  if extension_excluded c filename then ret (count_skipped st)
  else if pattern_excluded c filename then ret (count_skipped st)
  else if not_included c filename then ret (count_skipped st)
  else
    let file_path := PosixPath.join current_dir filename in
    match PosixPath.relpath (getcwd w) file_path (root_directory c) with
    | None => raise (ValueError "no path specified")
    | Some relative_path => emit w file_path relative_path st
    end.

(** The directory gate: [true] when the [continue] is taken. *)
Definition directory_not_included (c : config) (current_dir : string) : bool :=
  nonempty (included_directories c) &&
  negb (existsb (fun pattern =>
                   PyStr.contains pattern (PosixPath.basename current_dir))
                (included_directories c)).

(** One turn of [for current_dir, subdirs, files in os.walk(...)]: the
    new content of [subdirs] and the state. *)
Definition visit_directory (c : config) (w : world)
  (current_dir : string) (subdirs files : list string) (st : state)
  : M (list string * state) :=
  let subdirs :=
    filter (fun d => negb (PyStr.mem d (excluded_directories c))) subdirs in
  if directory_not_included c current_dir then ret (subdirs, st)
  else
    st' <- for_each (process_file c w current_dir) files st ;;
    ret (subdirs, st').

(** What [os.walk] finds at [root_directory] when listing it does not
    raise: listing the empty path fails with an [OSError], which the walk
    swallows, so nothing is yielded. *)
Definition walk_root (c : config) (w : world) : tree :=
  if PyStr.truthy (root_directory c) then fs w else NoListing.

(** The [for] statement of line 59.  Listing a path that holds a NUL
    character raises [ValueError], which is not an [OSError]: the walk
    does not swallow it. *)
Definition walk (c : config) (w : world) (st : state) : M state :=
  if PyStr.contains nul (root_directory c)
  then raise (ValueError "embedded null byte")
  else os_walk (visit_directory c w) (root_directory c) (walk_root c w) st.

(** The two [print] calls after the [with] block. *)
Definition summary (c : config) (w : world) (st : state) : M state :=
  st <- console_print w
          (nl ++ "Complete! Processed " ++ PyStr.of_nat (files_processed st)
              ++ " files, skipped " ++ PyStr.of_nat (files_skipped st)) st ;;
  console_print w ("Output saved to: " ++ output_path c) st.

(** The whole function.  The result is the final state: the text of the
    output file, the console and the two counters. *)
Definition concatenate_directory_tree (a : arguments) (w : world) : M state :=
  let c := defaults a in
  match open_for_writing w (output_path c) with
  | Some error => raise error
  | None =>
      st <- walk c w initial ;;
      summary c w st
  end.

(* ------------------------------------------------------------------ *)
(** ** The traversal as a list

    What the run does is determined by the sequence of directories the
    walk yields and, within it, by the sequence of file names that reach
    the inner loop.  Both are defined here from the listing alone. *)

(** The list comprehension of line 61. *)
Definition kept (excluded dirs : list string) : list string :=
  filter (fun d => negb (PyStr.mem d excluded)) dirs.

(** The pairs [(current_dir, files)] in the order [os.walk] yields them
    when the consumer removes the names in [excluded] from every [dirs]. *)
Fixpoint visits (excluded : list string) (top : string) (t : tree)
  : list (string * list string) :=
  match t with
  | NoListing => []
  | Dir nondirs entries =>
      (top, nondirs) ::
      flat_map
        (fun dirname =>
           scandir (fun t' => visits excluded (PosixPath.join top dirname) t')
                   [] dirname entries)
        (kept excluded (map fst entries))
  end.

(** The pairs [(current_dir, filename)] the inner loop runs on: the files
    of the visited directories that pass the directory gate. *)
Definition candidates (c : config) (top : string) (t : tree)
  : list (string * string) :=
  flat_map
    (fun v => if directory_not_included c (fst v) then []
              else map (pair (fst v)) (snd v))
    (visits (excluded_directories c) top t).

(** A file name survives when none of the three filters takes it. *)
Definition survives (c : config) (filename : string) : bool :=
  negb (extension_excluded c filename) &&
  negb (pattern_excluded c filename) &&
  negb (not_included c filename).

(** The value of the local variable [relative_path]; the empty path, for
    which [relpath] raises, does not occur (see [join_nonempty]). *)
Definition relative_path (c : config) (w : world) (file_path : string)
  : string :=
  match PosixPath.relpath (getcwd w) file_path (root_directory c) with
  | Some r => r
  | None => ""
  end.

Definition file_path (x : string * string) : string :=
  PosixPath.join (fst x) (snd x).

(** The candidates that survive the file filters, in order. *)
Definition survivors (c : config) (top : string) (t : tree)
  : list (string * string) :=
  filter (fun x => survives c (snd x)) (candidates c top t).


(** The header of a block. *)
Definition header (rel : string) : string :=
  PyStr.mul "=" 60 ++ nl ++ "File: " ++ rel ++ nl ++ PyStr.mul "=" 60 ++ nl.

(** What stands between the header and the two closing newlines. *)
Definition body_text (r : read_result) : string :=
  match r with
  | inl content => content
  | inr error => "[ERROR: Could not read file - " ++ error ++ "]" ++ nl
  end.

(** What the read of a surviving file answers when the run has written
    [written] before it comes to the file: the header goes out first. *)
Definition answer (c : config) (w : world) (x : string * string)
  (written : string) : read_result :=
  read_file w (file_path x)
            (written ++ header (relative_path c w (file_path x))).

(** The text one surviving file adds to the output, given the answer of
    its read. *)
Definition block (c : config) (w : world)
  (e : (string * string) * read_result) : string :=
  header (relative_path c w (file_path (fst e)))
  ++ body_text (snd e) ++ nl ++ nl.

(** The surviving files in order, each with the answer its read got;
    [written] is the output at the start. *)
Fixpoint transcript (c : config) (w : world) (written : string)
  (l : list (string * string)) : list ((string * string) * read_result) :=
  match l with
  | [] => []
  | x :: l' =>
      let r := answer c w x written in
      (x, r) :: transcript c w (written ++ block c w (x, r)) l'
  end.

Definition read_ok (e : (string * string) * read_result) : bool :=
  match snd e with inl _ => true | inr _ => false end.

Definition progress_line (c : config) (w : world) (x : string * string)
  : string :=
  "Processing: " ++ relative_path c w (file_path x).

(** The two lines printed after the loop. *)
Definition summary_lines (c : config) (processed skipped : nat) : list string :=
  [nl ++ "Complete! Processed " ++ PyStr.of_nat processed
      ++ " files, skipped " ++ PyStr.of_nat skipped;
   "Output saved to: " ++ output_path c].

(** A world with another listing, or another answer for one path. *)
Definition with_fs (w : world) (t : tree) : world :=
  {| fs := t; read_file := read_file w;
     open_for_writing := open_for_writing w; getcwd := getcwd w;
     stdout_encodes := stdout_encodes w |}.


Section Entries.
Context (excluded : list string).

(** Drop the entries named in [excluded] and rewrite the others. *)
Fixpoint prune_entries (rewrite : tree -> tree) (l : list (string * tree))
  : list (string * tree) :=
  match l with
  | [] => []
  | (name, t') :: l' =>
      if PyStr.mem name excluded then prune_entries rewrite l'
      else (name, rewrite t') :: prune_entries rewrite l'
  end.

(** No entry is named in [excluded], and [below] holds of each. *)
Fixpoint clean_entries (below : tree -> Prop) (l : list (string * tree))
  : Prop :=
  match l with
  | [] => True
  | (name, t') :: l' =>
      PyStr.mem name excluded = false /\ below t' /\ clean_entries below l'
  end.
End Entries.

(** The listing with every subdirectory named in [excluded] taken out,
    at every depth below the root. *)
Fixpoint prune (excluded : list string) (t : tree) : tree :=
  match t with
  | NoListing => NoListing
  | Dir nondirs entries =>
      Dir nondirs (prune_entries excluded (prune excluded) entries)
  end.

(** No subdirectory below the root of [t] has a name in [excluded]. *)
Fixpoint no_excluded_subdir (excluded : list string) (t : tree) : Prop :=
  match t with
  | NoListing => True
  | Dir _ entries =>
      clean_entries excluded (no_excluded_subdir excluded) entries
  end.

(** The number of file names listed in all visited directories. *)
Definition listed_file_names (excluded : list string) (top : string) (t : tree)
  : nat :=
  list_sum (map (fun v => List.length (snd v)) (visits excluded top t)).

(* ------------------------------------------------------------------ *)
(** ** The run without exceptions, and what it leaves behind *)

(** What the walk does for one name left in [dirs]. *)
Definition descend {S : Type}
  (body : string -> list string -> list string -> S -> M (list string * S))
  (top : string) (entries : list (string * tree)) (dirname : string) (s : S)
  : M S :=
  scandir (fun t' => os_walk body (PosixPath.join top dirname) t' s)
          (ret s) dirname entries.

(** The part of the outer loop's body that touches the state. *)
Definition visit_files (c : config) (w : world) (v : string * list string)
  (st : state) : M state :=
  if directory_not_included c (fst v) then ret st
  else for_each (process_file c w (fst v)) (snd v) st.

(** What [emit] does to the state when it does not raise. *)
Definition emitted (w : world) (file_path relative_path : string) (st : state)
  : state :=
  let st := print ("Processing: " ++ relative_path) st in
  let st := write (PyStr.mul "=" 60 ++ nl) st in
  let st := write ("File: " ++ relative_path ++ nl) st in
  let st := write (PyStr.mul "=" 60 ++ nl) st in
  let st := copy_content (read_file w file_path (output st)) st in
  write (nl ++ nl) st.

(** What [process_file] does to the state when it does not raise. *)
Definition step (c : config) (w : world) (x : string * string) (st : state)
  : state :=
  if survives c (snd x)
  then emitted w (file_path x) (relative_path c w (file_path x)) st
  else count_skipped st.

(** Whether the console and the encoder take the two lines that carry
    the relative path of a file. *)
Definition label_encodes (c : config) (w : world) (x : string * string)
  : bool :=
  stdout_encodes w ("Processing: " ++ relative_path c w (file_path x))
  && Utf8.valid (relative_path c w (file_path x)).

(** The exception [emit] raises when they do not. *)
Definition label_error (c : config) (w : world) (x : string * string) : exn :=
  let rel := relative_path c w (file_path x) in
  if stdout_encodes w ("Processing: " ++ rel)
  then UnicodeEncodeError ("File: " ++ rel ++ nl)
  else UnicodeEncodeError ("Processing: " ++ rel).

(** The first file on which the run stops, if there is one. *)
Definition first_refused (c : config) (w : world)
  (l : list (string * string)) : option (string * string) :=
  find (fun x => survives c (snd x) && negb (label_encodes c w x)) l.

(** The state after the loops, as a fold over the candidates. *)
Definition after_walk (c : config) (w : world) : state :=
  fold_left (fun st x => step c w x st)
            (candidates c (root_directory c) (walk_root c w)) initial.

(** The state after the two lines of the summary. *)
Definition summarised (c : config) (st : state) : state :=
  let st :=
    print (nl ++ "Complete! Processed " ++ PyStr.of_nat (files_processed st)
              ++ " files, skipped " ++ PyStr.of_nat (files_skipped st)) st in
  print ("Output saved to: " ++ output_path c) st.



(** All the strings of a list, one after the other. *)
Definition concat_all (l : list string) : string :=
  fold_right String.append "" l.

(** The candidates a file filter takes. *)
Definition filtered_out (c : config) (top : string) (t : tree)
  : list (string * string) :=
  filter (fun x => negb (survives c (snd x))) (candidates c top t).

(* ------------------------------------------------------------------ *)
(** ** Sample inputs *)

Module Sample.

Definition args (root : string)
  (ext dirs incl_dirs incl_files patterns : option (list string))
  : arguments :=
  {| arg_root_directory := root;
     arg_output_path := "concatenated_output.txt";
     arg_excluded_extensions := ext;
     arg_excluded_directories := dirs;
     arg_included_directories := incl_dirs;
     arg_included_files := incl_files;
     arg_excluded_file_patterns := patterns |}.

(** [a.py], [b.log], [node_modules/c.js], [src/m.py], [src/deep/z.py] *)
Definition project : tree :=
  Dir ["a.py"; "b.log"]
      [("node_modules", Dir ["c.js"] []);
       ("src", Dir ["m.py"] [("deep", Dir ["z.py"] [])])].

(** Every file reads as [x=1], except that [unreadable] cannot be read;
    the console is a UTF-8 console. *)
Definition world_of (t : tree) (unreadable : string) : world :=
  {| fs := t;
     read_file := fun p _ =>
       if String.eqb p unreadable then inr "Permission denied"
       else inl "x=1";
     open_for_writing := fun _ => None;
     getcwd := "/home/user";
     stdout_encodes := Utf8.valid |}.

End Sample.

(* ------------------------------------------------------------------ *)
(** ** The script's own call *)

(** The arguments of the call under [if __name__ == "__main__"]. *)
Definition main_arguments : arguments :=
  {| arg_root_directory := ".";
     arg_output_path := "concatenated_output.txt";
     arg_excluded_extensions :=
       Some ["pyc"; "pyo"; "pyd"; "so";
             "class"; "jar";
             "exe"; "dll"; "obj";
             "log"; "tmp"; "cache";
             "jpg"; "jpeg"; "png"; "gif"; "svg"; "ico";
             "woff"; "woff2"; "ttf"; "eot";
             "mp3"; "mp4"; "avi"; "mov";
             "zip"; "tar"; "gz"; "rar";
             "pdf"; "doc"; "docx"];
     arg_excluded_directories :=
       Some ["__pycache__"; ".git"; ".svn"; ".hg";
             "node_modules"; "venv"; "env"; ".env";
             "dist"; "build"; "target";
             ".idea"; ".vscode"; ".vs";
             "migrations"; "static"; "media"];
     arg_included_directories := None;
     arg_included_files := None;
     arg_excluded_file_patterns :=
       Some ["requirements"; ".min.js"; ".min.css"] |}.

Definition main (w : world) : M state :=
  concatenate_directory_tree main_arguments w.

(* ------------------------------------------------------------------ *)
(** ** Names and the paths built from them *)

(** What a directory listing can hold as a name: not empty, not [.] or
    [..], and without a separator. *)
Definition is_name (n : string) : bool :=
  PyStr.truthy n
  && negb (String.eqb n PosixPath.curdir)
  && negb (String.eqb n PosixPath.pardir)
  && negb (PyStr.contains PosixPath.sep n).

(** A component [normpath] keeps: not empty and without a separator. *)
Definition kept_component (s : string) : Prop :=
  s <> "" /\ PyStr.contains PosixPath.sep s = false.

(** The path [abspath] hands to [normpath]. *)
Definition anchor (cwd p : string) : string :=
  if PosixPath.isabs p then p else PosixPath.join cwd p.

Section ProperEntries.
Context (deeper : tree -> bool).

Fixpoint proper_entries (l : list (string * tree)) : bool :=
  match l with
  | [] => true
  | (name, t') :: l' => is_name name && deeper t' && proper_entries l'
  end.
End ProperEntries.

(** Every name in the listing, at every depth, is a name. *)
Fixpoint proper_names (t : tree) : bool :=
  match t with
  | NoListing => true
  | Dir nondirs entries =>
      forallb is_name nondirs && proper_entries proper_names entries
  end.

(** The path [os.walk] builds for the directory reached from [root]
    through the subdirectories [names]: [join] after [join]. *)
Definition below (root : string) (names : list string) : string :=
  fold_left PosixPath.join names root.

(** [visits], with the names that lead to a directory in place of its
    path. *)
Fixpoint named_visits (excluded : list string) (names : list string) (t : tree)
  : list (list string * list string) :=
  match t with
  | NoListing => []
  | Dir nondirs entries =>
      (names, nondirs) ::
      flat_map
        (fun dirname =>
           scandir (fun t' => named_visits excluded (names ++ [dirname]) t')
                   [] dirname entries)
        (kept excluded (map fst entries))
  end.

(** [candidates], likewise: the names that lead to the directory, and
    the file name. *)
Definition named_candidates (c : config) (root : string) (t : tree)
  : list (list string * string) :=
  flat_map
    (fun v => if directory_not_included c (below root (fst v)) then []
              else map (pair (fst v)) (snd v))
    (named_visits (excluded_directories c) [] t).

(** The names from the root down to a file, joined by the separator. *)
Definition label (y : list string * string) : string :=
  String.concat PosixPath.sep (fst y ++ [snd y]).

(** A world with other answers to reads. *)
Definition with_reads (w : world) (answers : string -> string -> read_result)
  : world :=
  {| fs := fs w; read_file := answers;
     open_for_writing := open_for_writing w; getcwd := getcwd w;
     stdout_encodes := stdout_encodes w |}.

(* ------------------------------------------------------------------ *)
(** ** Induction on listings *)

Section TreeInduction.
Variable P : tree -> Prop.
Hypothesis P_no_listing : P NoListing.
Hypothesis P_dir :
  forall nondirs entries,
    Forall (fun e => P (snd e)) entries -> P (Dir nondirs entries).

Fixpoint tree_ind (t : tree) : P t :=
  match t with
  | NoListing => P_no_listing
  | Dir nondirs entries =>
      P_dir nondirs
        ((fix all (l : list (string * tree)) : Forall (fun e => P (snd e)) l :=
            match l with
            | [] => Forall_nil _
            | (name, t') :: l' =>
                Forall_cons (name, t') (tree_ind t') (all l')
            end) entries)
  end.
End TreeInduction.

(* ------------------------------------------------------------------ *)
(** ** The library functions on sample inputs *)

Example basename_ex1 : PosixPath.basename "/path/to/project" = "project".
Proof. reflexivity. Qed.
Example basename_ex2 : PosixPath.basename "/path/to/project/" = "".
Proof. reflexivity. Qed.
Example join_ex1 : PosixPath.join "." "src" = "./src".
Proof. reflexivity. Qed.
Example relpath_ex1 :
  PosixPath.relpath "/home/u" "./src/a.py" "." = Some "src/a.py".
Proof. reflexivity. Qed.
Example relpath_ex2 :
  PosixPath.relpath "/home/u" "/home/u/p/../q/a.py" "/home/u/p" = Some "../q/a.py".
Proof. reflexivity. Qed.
Example of_nat_ex : PyStr.of_nat 0 = "0" /\ PyStr.of_nat 42 = "42".
Proof. split; reflexivity. Qed.
Example endswith_ex :
  PyStr.endswith "b.log" ".log" = true /\ PyStr.endswith "log" ".log" = false.
Proof. split; reflexivity. Qed.

(** The encoder takes plain text and the bytes of U+00E9, U+20AC and
    U+1F600; it refuses a stray byte, an overlong form, an encoded
    surrogate, a value above U+10FFFF and a character cut short. *)
Example utf8_ex :
  let bytes := fun l => string_of_list_ascii (map ascii_of_nat l) in
  Utf8.valid "src/a.py" = true
  /\ Utf8.valid (bytes [195; 169]) = true
  /\ Utf8.valid (bytes [226; 130; 172]) = true
  /\ Utf8.valid (bytes [240; 159; 152; 128]) = true
  /\ Utf8.valid (bytes [255]) = false
  /\ Utf8.valid (bytes [192; 128]) = false
  /\ Utf8.valid (bytes [237; 160; 128]) = false
  /\ Utf8.valid (bytes [244; 144; 128; 128]) = false
  /\ Utf8.valid (bytes [226; 130]) = false.
Proof. repeat split; reflexivity. Qed.

(* ------------------------------------------------------------------ *)
(** ** Loops *)

Lemma bind_ret_l {A B : Type} (x : A) (k : A -> M B) : bind (ret x) k = k x.
Proof. reflexivity. Qed.

Lemma bind_assoc {A B C : Type} (m : M A) (k : A -> M B) (h : B -> M C) :
  bind (bind m k) h = bind m (fun x => bind (k x) h).
Proof. destruct m; reflexivity. Qed.

Lemma for_each_app {A S : Type} (body : A -> S -> M S) (l1 l2 : list A) :
  forall s,
    for_each body (l1 ++ l2)%list s =
    bind (for_each body l1 s) (for_each body l2).
Proof.
  induction l1 as [|x l1 IH]; intro s; simpl.
  - reflexivity.
  - destruct (body x s) as [e|s']; simpl; [reflexivity | apply IH].
Qed.

Lemma for_each_map {A B S : Type} (f : A -> B) (body : B -> S -> M S)
  (l : list A) :
  forall s, for_each body (map f l) s = for_each (fun x => body (f x)) l s.
Proof.
  induction l as [|x l IH]; intro s; simpl.
  - reflexivity.
  - destruct (body (f x) s) as [e|s']; simpl; [reflexivity | apply IH].
Qed.

(** A loop whose body never raises is a left fold. *)
Lemma for_each_pure {A S : Type} (body : A -> S -> M S) (step : A -> S -> S)
  (l : list A) :
  Forall (fun x => forall s, body x s = ret (step x s)) l ->
  forall s, for_each body l s = ret (fold_left (fun s x => step x s) l s).
Proof.
  induction 1 as [|x l Hx _ IH]; intro s; simpl.
  - reflexivity.
  - rewrite Hx. simpl. apply IH.
Qed.

(* ------------------------------------------------------------------ *)
(** ** The walk is a loop over [visits] *)

Lemma os_walk_visits (c : config) (w : world) (t : tree) :
  forall top st,
    os_walk (visit_directory c w) top t st =
    for_each (visit_files c w) (visits (excluded_directories c) top t) st.
Proof.
  induction t as [|nondirs entries IH] using tree_ind; intros top st.
  - reflexivity.
  - cbn [os_walk visits for_each].
    assert (Hsub : forall dirs s,
      for_each
        (fun dirname s0 =>
           scandir
             (fun t' => os_walk (visit_directory c w)
                                (PosixPath.join top dirname) t' s0)
             (ret s0) dirname entries) dirs s =
      for_each (visit_files c w)
        (flat_map
           (fun dirname =>
              scandir
                (fun t' => visits (excluded_directories c)
                                  (PosixPath.join top dirname) t')
                [] dirname entries) dirs) s).
    { induction dirs as [|d dirs IHd]; intro s; cbn [for_each flat_map].
      - reflexivity.
      - rewrite for_each_app.
        assert (Hd :
          scandir (fun t' => os_walk (visit_directory c w)
                                     (PosixPath.join top d) t' s)
                  (ret s) d entries =
          for_each (visit_files c w)
            (scandir (fun t' => visits (excluded_directories c)
                                       (PosixPath.join top d) t')
                     [] d entries) s).
        { clear IHd. induction IH as [|[name t'] l Ht' _ IHl]; cbn [scandir].
          - reflexivity.
          - destruct (String.eqb name d); [apply Ht' | apply IHl]. }
        rewrite Hd.
        destruct (for_each (visit_files c w) _ s) as [e|s']; cbn [bind];
          [reflexivity | apply IHd]. }
    unfold visit_directory, visit_files at 1. cbn [fst snd].
    destruct (directory_not_included c top).
    + cbn [bind ret fst snd]. apply Hsub.
    + rewrite bind_assoc.
      destruct (for_each (process_file c w top) nondirs st) as [e|s'];
        cbn [bind ret fst snd]; [reflexivity | apply Hsub].
Qed.

Lemma for_each_candidates (c : config) (w : world)
  (vs : list (string * list string)) :
  forall st,
    for_each (visit_files c w) vs st =
    for_each (fun x => process_file c w (fst x) (snd x))
      (flat_map (fun v => if directory_not_included c (fst v) then []
                          else map (pair (fst v)) (snd v)) vs) st.
Proof.
  induction vs as [|v vs IH]; intro st; cbn [for_each flat_map].
  - reflexivity.
  - rewrite for_each_app. unfold visit_files at 1.
    destruct (directory_not_included c (fst v)).
    + cbn [bind ret for_each]. apply IH.
    + rewrite for_each_map. cbn [fst snd].
      destruct (for_each _ (snd v) st) as [e|s']; cbn [bind];
        [reflexivity | apply IH].
Qed.

(* ------------------------------------------------------------------ *)
(** ** No path the run builds is empty *)

Lemma truthy_true (s : string) : PyStr.truthy s = true <-> s <> "".
Proof. destruct s; simpl; split; congruence. Qed.

Lemma join_nonempty (a b : string) : a <> "" -> PosixPath.join a b <> "".
Proof.
  intro Ha. unfold PosixPath.join, PyStr.startswith.
  destruct (String.prefix PosixPath.sep b) eqn:Hb.
  - destruct b; [discriminate Hb | discriminate].
  - destruct a as [|x a]; [congruence|].
    destruct (_ || _); simpl; discriminate.
Qed.

Lemma relpath_nonempty (cwd path start : string) :
  path <> "" -> exists r, PosixPath.relpath cwd path start = Some r.
Proof.
  intro Hp. unfold PosixPath.relpath.
  apply truthy_true in Hp. rewrite Hp. cbn [negb].
  destruct (_ ++ _)%list; eexists; reflexivity.
Qed.

Lemma scandir_Forall {A : Type} (P : A -> Prop) (f : tree -> list A)
  (d : string) (entries : list (string * tree)) :
  Forall (fun e => Forall P (f (snd e))) entries ->
  Forall P (scandir f [] d entries).
Proof.
  induction 1 as [|[name t'] l Ht' _ IH]; cbn [scandir].
  - constructor.
  - destruct (String.eqb name d); assumption.
Qed.

Lemma visits_nonempty (excluded : list string) (t : tree) :
  forall top,
    top <> "" -> Forall (fun v => fst v <> "") (visits excluded top t).
Proof.
  induction t as [|nondirs entries IH] using tree_ind; intros top Htop.
  - constructor.
  - cbn [visits]. constructor; [exact Htop|].
    apply Forall_flat_map. apply Forall_forall. intros d _.
    apply scandir_Forall.
    eapply Forall_impl; [|exact IH].
    intros e He. apply He. now apply join_nonempty.
Qed.

Lemma candidates_nonempty (c : config) (top : string) (t : tree) :
  top <> "" -> Forall (fun x => fst x <> "") (candidates c top t).
Proof.
  intro Htop. unfold candidates. apply Forall_flat_map.
  eapply Forall_impl; [|apply visits_nonempty; exact Htop].
  intros v Hv. destruct (directory_not_included c (fst v)); [constructor|].
  apply Forall_map. apply Forall_forall. intros f _. exact Hv.
Qed.

(* ------------------------------------------------------------------ *)
(** ** What the encoder takes *)

Lemma scan_append_nl (s : string) :
  forall q, Utf8.scan q (s ++ nl) = Utf8.scan q s.
Proof.
  induction s as [|x s IH]; intro q; cbn [append Utf8.scan].
  - destruct q; reflexivity.
  - destruct (Utf8.step q x); [apply IH | reflexivity].
Qed.

Lemma valid_file_line (rel : string) :
  Utf8.valid ("File: " ++ rel ++ nl) = Utf8.valid rel.
Proof.
  unfold Utf8.valid.
  change (Utf8.scan Utf8.Lead ("File: " ++ rel ++ nl))
    with (Utf8.scan Utf8.Lead (rel ++ nl)).
  apply scan_append_nl.
Qed.

Lemma valid_separator : Utf8.valid (PyStr.mul "=" 60 ++ nl) = true.
Proof. vm_compute. reflexivity. Qed.

Lemma valid_two_newlines : Utf8.valid (nl ++ nl) = true.
Proof. reflexivity. Qed.

(* ------------------------------------------------------------------ *)
(** ** The inner loop, exception by exception *)

Lemma emit_spec (w : world) (p rel : string) (st : state) :
  emit w p rel st =
  if stdout_encodes w ("Processing: " ++ rel)
  then if Utf8.valid rel then ret (emitted w p rel st)
       else raise (UnicodeEncodeError ("File: " ++ rel ++ nl))
  else raise (UnicodeEncodeError ("Processing: " ++ rel)).
Proof.
  unfold emit, emitted, console_print, output_write.
  destruct (stdout_encodes w ("Processing: " ++ rel)); [|reflexivity].
  cbn [bind ret]. rewrite valid_separator. cbn [bind ret].
  rewrite valid_file_line.
  destruct (Utf8.valid rel); [|reflexivity].
  cbn [bind ret]. now rewrite valid_two_newlines.
Qed.

Lemma process_file_step (c : config) (w : world) (x : string * string)
  (st : state) :
  fst x <> "" ->
  process_file c w (fst x) (snd x) st =
  if survives c (snd x) && negb (label_encodes c w x)
  then raise (label_error c w x)
  else ret (step c w x st).
Proof.
  intro Hx.
  unfold process_file, step, survives, label_encodes, label_error,
    relative_path, file_path.
  destruct (extension_excluded c (snd x)); [reflexivity|].
  destruct (pattern_excluded c (snd x)); [reflexivity|].
  destruct (not_included c (snd x)); [reflexivity|].
  cbn [negb andb].
  destruct (relpath_nonempty (getcwd w) (root_directory c)
              (join_nonempty (snd x) Hx)) as [r Hr].
  rewrite Hr, emit_spec.
  destruct (stdout_encodes w ("Processing: " ++ r)); [|reflexivity].
  destruct (Utf8.valid r); reflexivity.
Qed.

(** A loop whose body raises on the elements [refused] and is a pure step
    on the others stops at the first refused element. *)
Lemma for_each_until {A S : Type} (body : A -> S -> M S)
  (refused : A -> bool) (error : A -> exn) (step : A -> S -> S)
  (l : list A) :
  Forall (fun x => forall s,
            body x s = if refused x then raise (error x)
                       else ret (step x s)) l ->
  forall s,
    for_each body l s =
    match find refused l with
    | Some x => raise (error x)
    | None => ret (fold_left (fun s x => step x s) l s)
    end.
Proof.
  induction 1 as [|x l Hx _ IH]; intro s; cbn [for_each find fold_left].
  - reflexivity.
  - rewrite Hx. destruct (refused x); [reflexivity|].
    cbn [bind ret]. apply IH.
Qed.

Lemma walk_root_candidates (c : config) (w : world) :
  Forall (fun x => fst x <> "")
         (candidates c (root_directory c) (walk_root c w)).
Proof.
  unfold walk_root. destruct (PyStr.truthy (root_directory c)) eqn:Hr.
  - apply candidates_nonempty. now apply truthy_true.
  - constructor.
Qed.

Lemma walk_after_walk (c : config) (w : world) :
  os_walk (visit_directory c w) (root_directory c) (walk_root c w) initial
  = match first_refused c w
            (candidates c (root_directory c) (walk_root c w)) with
    | Some x => raise (label_error c w x)
    | None => ret (after_walk c w)
    end.
Proof.
  rewrite os_walk_visits, for_each_candidates.
  unfold first_refused, after_walk.
  apply (for_each_until
           (fun x => process_file c w (fst x) (snd x))
           (fun x => survives c (snd x) && negb (label_encodes c w x))
           (label_error c w) (step c w)).
  eapply Forall_impl; [|apply walk_root_candidates].
  intros x Hx s. now apply process_file_step.
Qed.

Lemma summary_spec (c : config) (w : world) (st : state) :
  summary c w st =
  match find (fun line => negb (stdout_encodes w line))
             [nl ++ "Complete! Processed " ++ PyStr.of_nat (files_processed st)
                 ++ " files, skipped " ++ PyStr.of_nat (files_skipped st);
              "Output saved to: " ++ output_path c] with
  | Some line => raise (UnicodeEncodeError line)
  | None => ret (summarised c st)
  end.
Proof.
  unfold summary, summarised, console_print. cbn [find].
  destruct (stdout_encodes w _); [|reflexivity].
  cbn [bind ret negb print files_processed files_skipped].
  destruct (stdout_encodes w _); reflexivity.
Qed.

(** The run, exception by exception. *)
Lemma run_spec (a : arguments) (w : world) :
  concatenate_directory_tree a w =
  match open_for_writing w (arg_output_path a) with
  | Some error => raise error
  | None =>
      if PyStr.contains nul (arg_root_directory a)
      then raise (ValueError "embedded null byte")
      else
        match first_refused (defaults a) w
                (candidates (defaults a) (arg_root_directory a)
                            (walk_root (defaults a) w)) with
        | Some x => raise (label_error (defaults a) w x)
        | None => summary (defaults a) w (after_walk (defaults a) w)
        end
  end.
Proof.
  unfold concatenate_directory_tree. cbn [defaults output_path].
  destruct (open_for_writing w (arg_output_path a)); [reflexivity|].
  change (Build_config _ _ _ _ _ _ _) with (defaults a).
  unfold walk. change (root_directory (defaults a)) with (arg_root_directory a).
  destruct (PyStr.contains nul (arg_root_directory a)); [reflexivity|].
  change (arg_root_directory a) with (root_directory (defaults a)) at 1 2.
  rewrite walk_after_walk.
  change (root_directory (defaults a)) with (arg_root_directory a).
  destruct (first_refused _ _ _); reflexivity.
Qed.

(* ------------------------------------------------------------------ *)
(** ** The four fields of the final state *)

Lemma append_assoc (a b d : string) : (a ++ b) ++ d = a ++ (b ++ d).
Proof. induction a as [|x a IH]; simpl; [reflexivity | now rewrite IH]. Qed.

Lemma append_nil_r (a : string) : a ++ "" = a.
Proof. induction a as [|x a IH]; simpl; [reflexivity | now rewrite IH]. Qed.

Lemma emitted_output (w : world) (p rel : string) (st : state) :
  output (emitted w p rel st) =
  output st ++ header rel
  ++ body_text (read_file w p (output st ++ header rel)) ++ nl ++ nl.
Proof.
  unfold emitted, header, copy_content, body_text.
  cbn [output write print].
  rewrite !append_assoc.
  destruct (read_file w p _) as [content|error];
    cbn [output write print count_processed count_skipped];
    now rewrite !append_assoc.
Qed.

Lemma emitted_stdout (w : world) (p rel : string) (st : state) :
  stdout (emitted w p rel st) = (stdout st ++ [("Processing: " ++ rel)%string])%list.
Proof.
  unfold emitted, copy_content.
  destruct (read_file w p _); reflexivity.
Qed.

Lemma emitted_processed (w : world) (p rel : string) (st : state) :
  files_processed (emitted w p rel st) =
  files_processed st +
  match read_file w p (output st ++ header rel) with
  | inl _ => 1
  | inr _ => 0
  end.
Proof.
  unfold emitted, header, copy_content. cbn [output write print].
  rewrite !append_assoc.
  destruct (read_file w p _);
    cbn [files_processed write print count_processed count_skipped]; lia.
Qed.

Lemma emitted_skipped (w : world) (p rel : string) (st : state) :
  files_skipped (emitted w p rel st) =
  files_skipped st +
  match read_file w p (output st ++ header rel) with
  | inl _ => 0
  | inr _ => 1
  end.
Proof.
  unfold emitted, header, copy_content. cbn [output write print].
  rewrite !append_assoc.
  destruct (read_file w p _);
    cbn [files_skipped write print count_processed count_skipped]; lia.
Qed.

Section Fold.
Variables (c : config) (w : world).

Let keep (x : string * string) : bool := survives c (snd x).
Let run_on (l : list (string * string)) (st : state) : state :=
  fold_left (fun st x => step c w x st) l st.

Lemma fold_output (l : list (string * string)) :
  forall st,
    output (run_on l st) =
    output st
    ++ concat_all (map (block c w) (transcript c w (output st) (filter keep l))).
Proof.
  subst run_on keep.
  induction l as [|x l IH]; intro st; cbn [fold_left filter].
  - cbn. now rewrite append_nil_r.
  - rewrite IH. unfold step.
    destruct (survives c (snd x)); cbn [transcript map concat_all fold_right].
    + rewrite emitted_output. unfold block at 2, answer. cbn [fst snd].
      unfold block at 1. cbn [fst snd]. now rewrite !append_assoc.
    + reflexivity.
Qed.

Lemma fold_stdout (l : list (string * string)) :
  forall st,
    stdout (run_on l st) =
    (stdout st ++ map (progress_line c w) (filter keep l))%list.
Proof.
  subst run_on keep.
  induction l as [|x l IH]; intro st; cbn [fold_left filter].
  - cbn. now rewrite app_nil_r.
  - rewrite IH. unfold step.
    destruct (survives c (snd x)); cbn [map].
    + rewrite emitted_stdout, <- app_assoc. reflexivity.
    + reflexivity.
Qed.

Lemma fold_processed (l : list (string * string)) :
  forall st,
    files_processed (run_on l st) =
    files_processed st
    + List.length (filter read_ok
                     (transcript c w (output st) (filter keep l))).
Proof.
  subst run_on keep.
  induction l as [|x l IH]; intro st; cbn [fold_left filter].
  - cbn. lia.
  - rewrite IH. unfold step.
    destruct (survives c (snd x)); cbn [transcript filter].
    + rewrite emitted_processed, emitted_output.
      unfold read_ok at 2, answer, block. cbn [fst snd].
      rewrite ?append_assoc.
      destruct (read_file w (file_path x) _); cbn [List.length]; lia.
    + cbn. lia.
Qed.

Lemma fold_skipped (l : list (string * string)) :
  forall st,
    files_skipped (run_on l st) =
    files_skipped st
    + List.length (filter (fun x => negb (keep x)) l)
    + List.length (filter (fun e => negb (read_ok e))
                     (transcript c w (output st) (filter keep l))).
Proof.
  subst run_on keep.
  induction l as [|x l IH]; intro st; cbn [fold_left filter].
  - cbn. lia.
  - rewrite IH. unfold step.
    destruct (survives c (snd x)); cbn [transcript filter negb].
    + rewrite emitted_skipped, emitted_output.
      unfold read_ok at 2, answer, block. cbn [fst snd].
      rewrite ?append_assoc.
      destruct (read_file w (file_path x) _); cbn [List.length negb]; lia.
    + cbn [List.length count_skipped files_skipped output]. lia.
Qed.
End Fold.

Lemma transcript_length (c : config) (w : world) (l : list (string * string)) :
  forall written, List.length (transcript c w written l) = List.length l.
Proof.
  induction l as [|x l IH]; intro written; cbn [transcript List.length];
    [reflexivity | now rewrite IH].
Qed.

Lemma transcript_files (c : config) (w : world) (l : list (string * string)) :
  forall written, map fst (transcript c w written l) = l.
Proof.
  induction l as [|x l IH]; intro written; cbn [transcript map fst];
    [reflexivity | now rewrite IH].
Qed.

Lemma after_walk_output (c : config) (w : world) :
  output (after_walk c w) =
  concat_all (map (block c w)
                (transcript c w ""
                   (survivors c (root_directory c) (walk_root c w)))).
Proof. unfold after_walk. now rewrite fold_output. Qed.

Lemma after_walk_stdout (c : config) (w : world) :
  stdout (after_walk c w) =
  map (progress_line c w) (survivors c (root_directory c) (walk_root c w)).
Proof. unfold after_walk. now rewrite fold_stdout. Qed.

Lemma after_walk_processed (c : config) (w : world) :
  files_processed (after_walk c w) =
  List.length (filter read_ok
                 (transcript c w ""
                    (survivors c (root_directory c) (walk_root c w)))).
Proof. unfold after_walk. now rewrite fold_processed. Qed.

Lemma after_walk_skipped (c : config) (w : world) :
  files_skipped (after_walk c w) =
  List.length (filtered_out c (root_directory c) (walk_root c w))
  + List.length (filter (fun e => negb (read_ok e))
                   (transcript c w ""
                      (survivors c (root_directory c) (walk_root c w)))).
Proof. unfold after_walk. now rewrite fold_skipped. Qed.

Lemma filter_split_length {A : Type} (p : A -> bool) (l : list A) :
  List.length (filter p l) + List.length (filter (fun x => negb (p x)) l)
  = List.length l.
Proof.
  induction l as [|x l IH]; cbn [filter]; [reflexivity|].
  destruct (p x); cbn [negb List.length]; lia.
Qed.


(* ------------------------------------------------------------------ *)
(** ** The filters, in words *)

Lemma nonempty_true {A : Type} (l : list A) : nonempty l = true <-> l <> [].
Proof. destruct l; simpl; split; congruence. Qed.

Lemma existsb_none {A : Type} (p : A -> bool) (l : list A) :
  existsb p l = false <-> (forall x, In x l -> p x = false).
Proof.
  split.
  - intros H x Hx. destruct (p x) eqn:Hp; [|reflexivity].
    rewrite <- H. symmetry. apply existsb_exists. now exists x.
  - intro H. destruct (existsb p l) eqn:He; [|reflexivity].
    apply existsb_exists in He. destruct He as [x [Hx Hp]].
    rewrite (H x Hx) in Hp. discriminate.
Qed.

Lemma directory_not_included_true (c : config) (current_dir : string) :
  directory_not_included c current_dir = true <->
  included_directories c <> [] /\
  (forall pattern, In pattern (included_directories c) ->
     PyStr.contains pattern (PosixPath.basename current_dir) = false).
Proof.
  unfold directory_not_included.
  rewrite andb_true_iff, negb_true_iff, nonempty_true, existsb_none.
  reflexivity.
Qed.

Lemma not_included_true (c : config) (filename : string) :
  not_included c filename = true <->
  included_files c <> [] /\
  (forall pattern, In pattern (included_files c) ->
     PyStr.contains pattern filename = false).
Proof.
  unfold not_included.
  rewrite andb_true_iff, negb_true_iff, nonempty_true, existsb_none.
  reflexivity.
Qed.

Lemma extension_excluded_true (c : config) (filename : string) :
  extension_excluded c filename = true <->
  exists ext, In ext (excluded_extensions c) /\
              PyStr.endswith filename ("." ++ ext) = true.
Proof. unfold extension_excluded. apply existsb_exists. Qed.

Lemma pattern_excluded_true (c : config) (filename : string) :
  pattern_excluded c filename = true <->
  exists pattern, In pattern (excluded_file_patterns c) /\
                  PyStr.contains pattern filename = true.
Proof. unfold pattern_excluded. apply existsb_exists. Qed.

Lemma survives_false (c : config) (filename : string) :
  survives c filename = false <->
  extension_excluded c filename = true \/
  pattern_excluded c filename = true \/
  not_included c filename = true.
Proof.
  unfold survives.
  destruct (extension_excluded c filename), (pattern_excluded c filename),
    (not_included c filename); simpl; intuition congruence.
Qed.

(** The empty string occurs in every string. *)
Lemma contains_empty (s : string) : PyStr.contains "" s = true.
Proof. destruct s; reflexivity. Qed.

(* ------------------------------------------------------------------ *)
(** ** Walking into one subdirectory *)

Lemma os_walk_Dir {S : Type}
  (body : string -> list string -> list string -> S -> M (list string * S))
  (top : string) (nondirs : list string) (entries : list (string * tree))
  (s : S) :
  os_walk body top (Dir nondirs entries) s =
  bind (body top (map fst entries) nondirs s)
       (fun r => for_each (descend body top entries) (fst r) (snd r)).
Proof. reflexivity. Qed.

(* ------------------------------------------------------------------ *)
(** ** Runs that agree *)

Lemma fold_left_ext {A B : Type} (f g : A -> B -> A) (l : list B) :
  (forall a b, f a b = g a b) ->
  forall a, fold_left f l a = fold_left g l a.
Proof.
  intro H. induction l as [|b l IH]; intro a; simpl; [reflexivity|].
  now rewrite H, IH.
Qed.

(** The run in a world with another listing: the listing comes in
    through the candidates only. *)
Lemma run_spec_with_fs (a : arguments) (w : world) (t : tree) :
  concatenate_directory_tree a (with_fs w t) =
  match open_for_writing w (arg_output_path a) with
  | Some error => raise error
  | None =>
      if PyStr.contains nul (arg_root_directory a)
      then raise (ValueError "embedded null byte")
      else
        let found :=
          candidates (defaults a) (arg_root_directory a)
            (if PyStr.truthy (arg_root_directory a) then t else NoListing) in
        match first_refused (defaults a) w found with
        | Some x => raise (label_error (defaults a) w x)
        | None =>
            summary (defaults a) w
              (fold_left (fun st x => step (defaults a) w x st) found initial)
        end
  end.
Proof. rewrite run_spec. reflexivity. Qed.

(** Two worlds that differ in their listing only give the same run when
    the same file names reach the inner loop. *)
Lemma run_same_candidates (a : arguments) (w : world) (t1 t2 : tree) :
  candidates (defaults a) (arg_root_directory a) t1 =
  candidates (defaults a) (arg_root_directory a) t2 ->
  concatenate_directory_tree a (with_fs w t1) =
  concatenate_directory_tree a (with_fs w t2).
Proof.
  intro H. rewrite !run_spec_with_fs.
  destruct (PyStr.truthy (arg_root_directory a)); [|reflexivity].
  now rewrite H.
Qed.

(* ------------------------------------------------------------------ *)
(** ** Pruned subtrees do not matter *)

Lemma flat_map_ext_In {A B : Type} (f g : A -> list B) (l : list A) :
  (forall x, In x l -> f x = g x) -> flat_map f l = flat_map g l.
Proof.
  induction l as [|x l IH]; intro H; cbn [flat_map]; [reflexivity|].
  rewrite (H x (or_introl eq_refl)), IH; [reflexivity|].
  intros y Hy. apply H. now right.
Qed.

Lemma kept_prune_entries (excluded : list string) (rewrite : tree -> tree)
  (entries : list (string * tree)) :
  kept excluded (map fst (prune_entries excluded rewrite entries)) =
  kept excluded (map fst entries).
Proof.
  unfold kept.
  induction entries as [|[name t'] l IH]; cbn [prune_entries map fst filter].
  - reflexivity.
  - destruct (PyStr.mem name excluded) eqn:Hm; cbn [negb map fst filter].
    + exact IH.
    + rewrite Hm. cbn [negb]. now rewrite IH.
Qed.

Lemma scandir_prune_entries {R : Type} (excluded : list string)
  (f : tree -> R) (absent : R) (d : string) (entries : list (string * tree)) :
  PyStr.mem d excluded = false ->
  Forall (fun e => f (prune excluded (snd e)) = f (snd e)) entries ->
  scandir f absent d (prune_entries excluded (prune excluded) entries) =
  scandir f absent d entries.
Proof.
  intro Hd.
  induction 1 as [|[name t'] l Ht' _ IH]; cbn [prune_entries scandir].
  - reflexivity.
  - destruct (PyStr.mem name excluded) eqn:Hm.
    + destruct (String.eqb_spec name d) as [->|_]; [congruence | exact IH].
    + cbn [scandir]. destruct (String.eqb name d); [exact Ht' | exact IH].
Qed.

Lemma visits_prune (excluded : list string) (t : tree) :
  forall top, visits excluded top (prune excluded t) = visits excluded top t.
Proof.
  induction t as [|nondirs entries IH] using tree_ind; intro top.
  - reflexivity.
  - cbn [prune visits]. f_equal. rewrite kept_prune_entries.
    apply flat_map_ext_In. intros d Hd.
    apply filter_In in Hd. destruct Hd as [_ Hd].
    apply negb_true_iff in Hd.
    apply scandir_prune_entries; [exact Hd|].
    eapply Forall_impl; [|exact IH]. intros e He. apply He.
Qed.

Lemma candidates_prune (c : config) (t : tree) (top : string) :
  candidates c top (prune (excluded_directories c) t) = candidates c top t.
Proof. unfold candidates. now rewrite visits_prune. Qed.

Lemma prune_clean (excluded : list string) (t : tree) :
  no_excluded_subdir excluded (prune excluded t).
Proof.
  induction t as [|nondirs entries IH] using tree_ind.
  - exact I.
  - cbn [prune no_excluded_subdir].
    induction IH as [|[name t'] l Ht' _ IHl]; cbn [prune_entries].
    + exact I.
    + destruct (PyStr.mem name excluded) eqn:Hm; [exact IHl|].
      cbn [clean_entries]. repeat split; assumption.
Qed.

(** When the gate of a directory is shut, its file names are not
    candidates. *)
Lemma candidates_gate_shut (c : config) (top : string)
  (nondirs1 nondirs2 : list string) (entries : list (string * tree)) :
  directory_not_included c top = true ->
  candidates c top (Dir nondirs1 entries) =
  candidates c top (Dir nondirs2 entries).
Proof.
  intro Hg. unfold candidates. cbn [visits flat_map fst snd].
  now rewrite Hg.
Qed.

(** Scenario A of the specification. *)
Example scenario_A :
  concatenate_directory_tree
    (Sample.args "." (Some ["log"]) (Some ["node_modules"]) None None None)
    (Sample.world_of
       (Dir ["a.py"; "b.log"] [("node_modules", Dir ["c.js"] [])]) "")
  = inr {| output := header "a.py" ++ "x=1" ++ nl ++ nl;
           stdout := "Processing: a.py"
                     :: summary_lines
                          (defaults (Sample.args "." None None None None None))
                          1 1;
           files_processed := 1;
           files_skipped := 1 |}.
Proof. vm_compute. reflexivity. Qed.

(* ------------------------------------------------------------------ *)
(** ** The directory gate *)

(** C1. With a non-empty [included_directories], a visit to a directory
    whose base name contains none of the inclusion substrings leaves the
    output, the console and both counters as they were and hands the walk
    every subdirectory name that is not excluded; the walk of such a
    directory is the walk, in order, of those subdirectories, each of them
    judged by its own name. *)
Theorem C1_gate_skips_files_but_descends
  (c : config) (w : world) (top : string) (files : list string)
  (entries : list (string * tree)) (st : state) :
  included_directories c <> [] ->
  (forall pattern, In pattern (included_directories c) ->
     PyStr.contains pattern (PosixPath.basename top) = false) ->
  visit_directory c w top (map fst entries) files st =
    ret (kept (excluded_directories c) (map fst entries), st)
  /\ os_walk (visit_directory c w) top (Dir files entries) st =
     for_each (descend (visit_directory c w) top entries)
              (kept (excluded_directories c) (map fst entries)) st.
Proof.
  intros Hne Hnone.
  assert (Hg : directory_not_included c top = true)
    by (apply directory_not_included_true; now split).
  assert (Hv : visit_directory c w top (map fst entries) files st =
               ret (kept (excluded_directories c) (map fst entries), st))
    by (unfold visit_directory; now rewrite Hg).
  split; [exact Hv|].
  rewrite os_walk_Dir, Hv. reflexivity.
Qed.

(** In [src], whose name does not contain [deep], [m.py] is passed over;
    the walk still reaches [src/deep] and emits [z.py]. *)
Lemma C1_witness :
  let c := defaults (Sample.args "." None (Some ["node_modules"])
                                 (Some ["deep"]) None None) in
  let w := Sample.world_of Sample.project "" in
  os_walk (visit_directory c w) "./src"
          (Dir ["m.py"] [("deep", Dir ["z.py"] [])]) initial
  = for_each (descend (visit_directory c w) "./src"
                      [("deep", Dir ["z.py"] [])]) ["deep"] initial
  /\ os_walk (visit_directory c w) "./src"
             (Dir ["m.py"] [("deep", Dir ["z.py"] [])]) initial
     = ret {| output := header "src/deep/z.py" ++ "x=1" ++ nl ++ nl;
              stdout := ["Processing: src/deep/z.py"];
              files_processed := 1; files_skipped := 0 |}.
Proof.
  intros c w. split.
  - apply (C1_gate_skips_files_but_descends c w "./src" ["m.py"]
             [("deep", Dir ["z.py"] [])] initial).
    + discriminate.
    + intros pattern [<-|[]]. reflexivity.
  - vm_compute. reflexivity.
Defined.

(** C9. The gate is applied to the root as well: when no inclusion
    substring occurs in the base name of [root_directory] as given, the
    run is the one of a root without files of its own; the base name of
    the default root [.] is [.]. *)
Theorem C9_gate_applies_to_root
  (a : arguments) (w : world) (files : list string)
  (entries : list (string * tree)) :
  included_directories (defaults a) <> [] ->
  (forall pattern, In pattern (included_directories (defaults a)) ->
     PyStr.contains pattern (PosixPath.basename (arg_root_directory a)) = false) ->
  concatenate_directory_tree a (with_fs w (Dir files entries)) =
  concatenate_directory_tree a (with_fs w (Dir [] entries))
  /\ PosixPath.basename "." = ".".
Proof.
  intros Hne Hnone. split; [|reflexivity].
  apply run_same_candidates, candidates_gate_shut.
  apply directory_not_included_true. now split.
Qed.

(** With the default root and [included_directories = ["src"]], the two
    files at the top are neither emitted nor counted. *)
Lemma C9_witness :
  let a := Sample.args "." None (Some ["node_modules"]) (Some ["src"])
                       None None in
  let w := Sample.world_of Sample.project "" in
  (concatenate_directory_tree a
     (with_fs w (Dir ["a.py"; "b.log"]
                     [("node_modules", Dir ["c.js"] []);
                      ("src", Dir ["m.py"] [("deep", Dir ["z.py"] [])])]))
   = concatenate_directory_tree a
       (with_fs w (Dir []
                     [("node_modules", Dir ["c.js"] []);
                      ("src", Dir ["m.py"] [("deep", Dir ["z.py"] [])])]))
   /\ PosixPath.basename "." = ".")
  /\ concatenate_directory_tree a w =
     ret {| output := header "src/m.py" ++ "x=1" ++ nl ++ nl;
            stdout := "Processing: src/m.py" :: summary_lines (defaults a) 1 0;
            files_processed := 1; files_skipped := 0 |}.
Proof.
  intros a w. split.
  - apply (C9_gate_applies_to_root a w).
    + discriminate.
    + intros pattern [<-|[]]. reflexivity.
  - vm_compute. reflexivity.
Defined.

(* ------------------------------------------------------------------ *)
(** ** Directory pruning *)

(** C7, as the code has it. For every setting of the other filters the
    run is the run on the listing from which every subdirectory named in
    [excluded_directories] has been removed, at every depth below the
    root: nothing under such a subdirectory is visited, emitted or
    counted.  The root itself is never tested against the list. *)
Theorem C7_excluded_subdirectories_are_never_visited
  (a : arguments) (w : world) :
  concatenate_directory_tree a w =
  concatenate_directory_tree a
    (with_fs w (prune (excluded_directories (defaults a)) (fs w)))
  /\ no_excluded_subdir (excluded_directories (defaults a))
                        (prune (excluded_directories (defaults a)) (fs w)).
Proof.
  split; [|apply prune_clean].
  transitivity (concatenate_directory_tree a (with_fs w (fs w))).
  - destruct w; reflexivity.
  - apply run_same_candidates. symmetry. apply candidates_prune.
Qed.

(** C7 fails at the root: a root whose own base name is in
    [excluded_directories] is walked all the same, and the file in it is
    emitted and counted. *)
Lemma C7_counterexample :
  let a := Sample.args "node_modules" None (Some ["node_modules"])
                       None None None in
  let w := Sample.world_of (Dir ["c.js"] []) "" in
  In (PosixPath.basename (arg_root_directory a))
     (excluded_directories (defaults a))
  /\ concatenate_directory_tree a w =
     ret {| output := header "c.js" ++ "x=1" ++ nl ++ nl;
            stdout := "Processing: c.js" :: summary_lines (defaults a) 1 0;
            files_processed := 1; files_skipped := 0 |}.
Proof.
  intros a w. split.
  - left. reflexivity.
  - vm_compute. reflexivity.
Qed.

(* ------------------------------------------------------------------ *)
(** ** The file filters *)

(** C3. The extension filter decides first, the pattern filter second,
    the inclusion gate third, each by skipping the file with one count and
    nothing written; a file none of them takes reaches the emitting code.
    A name that matches an excluded extension or an excluded pattern is
    skipped even when an [included_files] substring occurs in it. *)
Theorem C3_filters_in_order
  (c : config) (w : world) (current_dir filename : string) (st : state) :
  (extension_excluded c filename = true ->
     process_file c w current_dir filename st = ret (count_skipped st))
  /\ (extension_excluded c filename = false ->
      pattern_excluded c filename = true ->
      process_file c w current_dir filename st = ret (count_skipped st))
  /\ (extension_excluded c filename = false ->
      pattern_excluded c filename = false ->
      not_included c filename = true ->
      process_file c w current_dir filename st = ret (count_skipped st))
  /\ (extension_excluded c filename = false ->
      pattern_excluded c filename = false ->
      not_included c filename = false ->
      process_file c w current_dir filename st =
      match PosixPath.relpath (getcwd w)
              (PosixPath.join current_dir filename) (root_directory c) with
      | None => raise (ValueError "no path specified")
      | Some relative_path =>
          emit w (PosixPath.join current_dir filename) relative_path st
      end)
  /\ ((exists ext, In ext (excluded_extensions c) /\
                   PyStr.endswith filename ("." ++ ext) = true)
      \/ (exists pattern, In pattern (excluded_file_patterns c) /\
                          PyStr.contains pattern filename = true) ->
      (exists pattern, In pattern (included_files c) /\
                       PyStr.contains pattern filename = true) ->
      process_file c w current_dir filename st = ret (count_skipped st)).
Proof.
  unfold process_file. repeat split.
  - intros ->. reflexivity.
  - intros -> ->. reflexivity.
  - intros -> -> ->. reflexivity.
  - intros -> -> ->. reflexivity.
  - intros [He|Hp] _.
    + apply extension_excluded_true in He. now rewrite He.
    + apply pattern_excluded_true in Hp. rewrite Hp.
      now destruct (extension_excluded c filename).
Qed.

(** [test_a.log] matches the excluded extension [log] and the inclusion
    substring [test_]: it is skipped. *)
Lemma C3_witness :
  let c := defaults (Sample.args "." (Some ["log"]) None None
                                 (Some ["test_"]) None) in
  let w := Sample.world_of (Dir ["test_a.log"] []) "" in
  process_file c w "." "test_a.log" initial = ret (count_skipped initial).
Proof.
  intros c w.
  apply (C3_filters_in_order c w "." "test_a.log" initial).
  - left. exists "log". split; [left|]; reflexivity.
  - exists "test_". split; [left|]; reflexivity.
Defined.

(* ------------------------------------------------------------------ *)
(** ** The final state of a run that returns *)

Lemma run_returns (a : arguments) (w : world) (st : state) :
  concatenate_directory_tree a w = ret st ->
  st = summarised (defaults a) (after_walk (defaults a) w).
Proof.
  rewrite run_spec.
  destruct (open_for_writing w (arg_output_path a)); [discriminate|].
  destruct (PyStr.contains nul (arg_root_directory a)); [discriminate|].
  destruct (first_refused _ _ _); [discriminate|].
  rewrite summary_spec. destruct (find _ _); [discriminate|].
  intros [= <-]. reflexivity.
Qed.

Lemma summary_stdout (c : config) (st : state) :
  stdout (summarised c st) =
  (stdout st ++ summary_lines c (files_processed st) (files_skipped st))%list.
Proof.
  unfold summarised, summary_lines.
  cbn [stdout print files_processed files_skipped].
  now rewrite <- app_assoc.
Qed.

Lemma filter_none {A : Type} (p : A -> bool) (l : list A) :
  (forall x, p x = false) -> filter p l = [].
Proof.
  intro H. induction l as [|x l IH]; cbn [filter]; [reflexivity|].
  now rewrite H.
Qed.

Lemma filter_all {A : Type} (p : A -> bool) (l : list A) :
  (forall x, p x = true) -> filter p l = l.
Proof.
  intro H. induction l as [|x l IH]; cbn [filter]; [reflexivity|].
  now rewrite H, IH.
Qed.

Lemma length_flat_map {A B : Type} (f : A -> list B) (l : list A) :
  List.length (flat_map f l) = list_sum (map (fun x => List.length (f x)) l).
Proof.
  induction l as [|x l IH]; cbn [flat_map map list_sum]; [reflexivity|].
  now rewrite length_app, IH.
Qed.

Lemma candidates_without_gate (c : config) (top : string) (t : tree) :
  included_directories c = [] ->
  List.length (candidates c top t) =
  listed_file_names (excluded_directories c) top t.
Proof.
  intro He. unfold candidates, listed_file_names.
  rewrite length_flat_map. f_equal. apply map_ext. intro v.
  unfold directory_not_included. rewrite He. cbn [nonempty andb].
  apply length_map.
Qed.

(* ------------------------------------------------------------------ *)
(** ** When the run raises *)









(* ------------------------------------------------------------------ *)
(** ** Counting *)

(** C2 fails: with [included_directories = ["src"]] and the root [.], the
    file [a.py] is listed in a visited directory, yet both counters end
    at zero. *)
Lemma C2_counterexample :
  let a := Sample.args "." None None (Some ["src"]) None None in
  let w := Sample.world_of (Dir ["a.py"] []) "" in
  concatenate_directory_tree a w =
    ret {| output := ""; stdout := summary_lines (defaults a) 0 0;
           files_processed := 0; files_skipped := 0 |}
  /\ listed_file_names (excluded_directories (defaults a))
                       (root_directory (defaults a)) (walk_root (defaults a) w)
     = 1.
Proof. intros a w. split; vm_compute; reflexivity. Qed.

(** C2, as the code has it. At the end of a run the two counters add up
    to the number of file names listed in the visited directories that
    pass the [included_directories] gate; when that list is empty, this is
    the number of file names listed in all visited directories. *)
Theorem C2_counters_cover_the_gated_directories
  (a : arguments) (w : world) (st : state) :
  concatenate_directory_tree a w = ret st ->
  files_processed st + files_skipped st =
    List.length (candidates (defaults a) (root_directory (defaults a))
                            (walk_root (defaults a) w))
  /\ (included_directories (defaults a) = [] ->
      files_processed st + files_skipped st =
        listed_file_names (excluded_directories (defaults a))
                          (root_directory (defaults a))
                          (walk_root (defaults a) w)).
Proof.
  intro Hrun. apply run_returns in Hrun. subst st.
  set (c := defaults a).
  assert (Hsum : files_processed (summarised c (after_walk c w))
                 + files_skipped (summarised c (after_walk c w)) =
                 List.length (candidates c (root_directory c) (walk_root c w))).
  { cbn [summarised files_processed files_skipped print].
    rewrite after_walk_processed, after_walk_skipped.
    pose proof (filter_split_length read_ok
      (transcript c w ""
         (survivors c (root_directory c) (walk_root c w)))) as H1.
    rewrite transcript_length in H1.
    unfold survivors, filtered_out in *.
    pose proof (filter_split_length (fun x => survives c (snd x))
      (candidates c (root_directory c) (walk_root c w))) as H2.
    lia. }
  split; [exact Hsum|].
  intro He. rewrite Hsum. now apply candidates_without_gate.
Qed.

Lemma C2_witness :
  let a := Sample.args "." (Some ["log"]) (Some ["node_modules"])
                       None None None in
  let w := Sample.world_of Sample.project "./src/m.py" in
  exists st,
    concatenate_directory_tree a w = ret st
    /\ files_processed st = 2 /\ files_skipped st = 2
    /\ files_processed st + files_skipped st =
       listed_file_names (excluded_directories (defaults a))
                         (root_directory (defaults a)) (walk_root (defaults a) w).
Proof.
  intros a w.
  exists (summarised (defaults a) (after_walk (defaults a) w)).
  assert (Hrun : concatenate_directory_tree a w =
                 ret (summarised (defaults a) (after_walk (defaults a) w)))
    by (vm_compute; reflexivity).
  split; [exact Hrun|].
  split; [vm_compute; reflexivity|].
  split; [vm_compute; reflexivity|].
  apply (C2_counters_cover_the_gated_directories a w Hrun). reflexivity.
Defined.

(* ------------------------------------------------------------------ *)
(** ** Blocks *)



Lemma survives_true (c : config) (filename : string) :
  survives c filename = true <->
  extension_excluded c filename = false
  /\ pattern_excluded c filename = false
  /\ not_included c filename = false.
Proof.
  unfold survives.
  destruct (extension_excluded c filename), (pattern_excluded c filename),
    (not_included c filename); cbn; intuition congruence.
Qed.



(* ------------------------------------------------------------------ *)
(** ** One unreadable file *)





(* ------------------------------------------------------------------ *)
(** ** The console *)

(** C8 fails: a file whose read fails has its [Processing:] line and is
    counted as skipped. *)
Lemma C8_counterexample :
  let a := Sample.args "proj" None None None None None in
  let w := Sample.world_of (Dir ["a.py"] []) "proj/a.py" in
  concatenate_directory_tree a w =
    ret {| output := header "a.py"
                     ++ "[ERROR: Could not read file - Permission denied]"
                     ++ nl ++ nl ++ nl;
           stdout := "Processing: a.py" :: summary_lines (defaults a) 0 1;
           files_processed := 0; files_skipped := 1 |}.
Proof. intros a w. vm_compute. reflexivity. Qed.

(** C8, as the code has it. The console receives one [Processing:] line
    for every file that passes the three filters, in order, and then the
    two lines of the summary; the files that pass are the processed ones
    and the ones whose read failed. A file taken by a filter has no
    line. *)
Theorem C8_one_line_per_surviving_file
  (a : arguments) (w : world) (st : state) :
  let c := defaults a in
  let found := survivors c (root_directory c) (walk_root c w) in
  concatenate_directory_tree a w = ret st ->
  stdout st =
    (map (progress_line c w) found
     ++ summary_lines c (files_processed st) (files_skipped st))%list
  /\ List.length found =
     files_processed st
     + List.length (filter (fun e => negb (read_ok e))
                           (transcript c w "" found)).
Proof.
  intros c found Hrun. apply run_returns in Hrun. subst st. split.
  - rewrite summary_stdout, after_walk_stdout. reflexivity.
  - cbn [summarised files_processed print]. rewrite after_walk_processed.
    fold c found. rewrite <- (transcript_length c w found "").
    symmetry. apply filter_split_length.
Qed.

Lemma C8_witness :
  let a := Sample.args "proj" (Some ["log"]) (Some ["node_modules"])
                       None None None in
  let w := Sample.world_of Sample.project "proj/src/m.py" in
  exists st,
    concatenate_directory_tree a w = ret st
    /\ stdout st =
       ["Processing: a.py"; "Processing: src/m.py";
        "Processing: src/deep/z.py";
        nl ++ "Complete! Processed 2 files, skipped 2";
        "Output saved to: concatenated_output.txt"].
Proof.
  intros a w.
  exists (summarised (defaults a) (after_walk (defaults a) w)).
  assert (Hrun : concatenate_directory_tree a w =
                 ret (summarised (defaults a) (after_walk (defaults a) w)))
    by (vm_compute; reflexivity).
  split; [exact Hrun|].
  rewrite (proj1 (C8_one_line_per_surviving_file a w Hrun)).
  vm_compute. reflexivity.
Defined.

(* ------------------------------------------------------------------ *)
(** ** The empty pattern *)

Lemma survives_empty_pattern (c : config) (filename : string) :
  In "" (excluded_file_patterns c) -> survives c filename = false.
Proof.
  intro H. apply survives_false. right. left.
  apply pattern_excluded_true. exists "". split; [exact H|].
  apply contains_empty.
Qed.

(** C10. When the empty string is among [excluded_file_patterns], the
    pattern filter takes every file name; the output of the run is empty,
    no file is processed, no [Processing:] line is printed, and every
    file name that reaches the inner loop is counted as skipped. *)
Theorem C10_empty_pattern_skips_every_file
  (a : arguments) (w : world) (st : state) :
  let c := defaults a in
  In "" (excluded_file_patterns c) ->
  concatenate_directory_tree a w = ret st ->
  (forall filename, pattern_excluded c filename = true)
  /\ output st = ""
  /\ files_processed st = 0
  /\ files_skipped st =
     List.length (candidates c (root_directory c) (walk_root c w))
  /\ stdout st = summary_lines c 0 (files_skipped st).
Proof.
  intros c Hin Hrun. apply run_returns in Hrun. subst st. fold c.
  assert (Hnone : survivors c (root_directory c) (walk_root c w) = []).
  { unfold survivors. apply filter_none. intro x.
    now apply survives_empty_pattern. }
  assert (Hall : filtered_out c (root_directory c) (walk_root c w) =
                 candidates c (root_directory c) (walk_root c w)).
  { unfold filtered_out. apply filter_all. intro x.
    now rewrite survives_empty_pattern. }
  assert (Hp : files_processed (after_walk c w) = 0)
    by (rewrite after_walk_processed, Hnone; reflexivity).
  split; [|split; [|split; [|split]]].
  - intro filename. apply pattern_excluded_true. exists "".
    split; [exact Hin | apply contains_empty].
  - cbn [summarised output print].
    rewrite after_walk_output, Hnone. reflexivity.
  - exact Hp.
  - cbn [summarised files_skipped print].
    rewrite after_walk_skipped, Hnone, Hall.
    cbn [transcript filter List.length]. lia.
  - rewrite summary_stdout, after_walk_stdout, Hnone, Hp. reflexivity.
Qed.

Lemma C10_witness :
  let a := Sample.args "." None None None None (Some ["backup"; ""]) in
  let w := Sample.world_of Sample.project "" in
  exists st,
    concatenate_directory_tree a w = ret st
    /\ output st = "" /\ files_processed st = 0 /\ files_skipped st = 5.
Proof.
  intros a w.
  exists (summarised (defaults a) (after_walk (defaults a) w)).
  assert (Hrun : concatenate_directory_tree a w =
                 ret (summarised (defaults a) (after_walk (defaults a) w)))
    by (vm_compute; reflexivity).
  split; [exact Hrun|].
  destruct (C10_empty_pattern_skips_every_file a w (or_intror (or_introl eq_refl))
              Hrun) as [_ [Hout [Hp Hs]]].
  split; [exact Hout|]. split; [exact Hp|].
  vm_compute. reflexivity.
Defined.


(* ------------------------------------------------------------------ *)
(** ** What the string tests mean *)

Unset Implicit Arguments.

Lemma str_length_app (a b : string) :
  String.length (a ++ b) = String.length a + String.length b.
Proof. induction a as [|x a IH]; simpl; [reflexivity | now rewrite IH]. Qed.

Lemma prefix_iff (p s : string) :
  String.prefix p s = true <-> exists rest, s = p ++ rest.
Proof.
  revert s. induction p as [|x p IH]; intro s.
  - destruct s; simpl; split; intros _; eauto.
  - destruct s as [|y s]; simpl.
    + split; [discriminate | intros [rest H]; discriminate H].
    + destruct (ascii_dec x y) as [->|Hxy].
      * rewrite IH. split; intros [rest H]; exists rest.
        -- now rewrite H.
        -- now injection H.
      * split; [discriminate|]. intros [rest H]. injection H as H1 _.
        congruence.
Qed.

Lemma contains_iff (p s : string) :
  PyStr.contains p s = true <-> exists before after, s = before ++ p ++ after.
Proof.
  induction s as [|y s IH]; cbn [PyStr.contains].
  - rewrite orb_false_r, prefix_iff. split.
    + intros [rest H]. exists "", rest. exact H.
    + intros [before [after H]]. destruct before; [now exists after|].
      discriminate H.
  - rewrite orb_true_iff, prefix_iff, IH. split.
    + intros [[rest H]|[before [after H]]].
      * exists "", rest. exact H.
      * exists (String y before), after. simpl. now rewrite H.
    + intros [before [after H]]. destruct before as [|z before].
      * left. now exists after.
      * right. exists before, after. simpl in H. now injection H.
Qed.

Lemma substring_skip (pre s : string) (m : nat) :
  String.substring (String.length pre) m (pre ++ s) = String.substring 0 m s.
Proof. induction pre as [|x pre IH]; simpl; [reflexivity | exact IH]. Qed.

Lemma substring_whole (s : string) :
  String.substring 0 (String.length s) s = s.
Proof. induction s as [|x s IH]; simpl; [reflexivity | now rewrite IH]. Qed.

Lemma substring_split (s : string) :
  forall k, k <= String.length s ->
    s = String.substring 0 k s
        ++ String.substring k (String.length s - k) s.
Proof.
  induction s as [|x s IH]; intros k Hk.
  - destruct k; reflexivity.
  - destruct k as [|k].
    + cbn [String.substring append]. rewrite Nat.sub_0_r.
      cbn [String.length String.substring]. now rewrite substring_whole.
    + cbn [String.substring String.length Nat.sub append]. f_equal.
      apply IH. simpl in Hk. lia.
Qed.

Lemma endswith_iff (s p : string) :
  PyStr.endswith s p = true <-> exists stem, s = stem ++ p.
Proof.
  unfold PyStr.endswith. rewrite andb_true_iff, Nat.leb_le, String.eqb_eq.
  split.
  - intros [Hle Hsub].
    exists (String.substring 0 (String.length s - String.length p) s).
    assert (Hk : String.length s - String.length p <= String.length s) by lia.
    pose proof (substring_split s _ Hk) as H.
    replace (String.length s - (String.length s - String.length p))
      with (String.length p) in H by lia.
    now rewrite Hsub in H.
  - intros [stem ->]. rewrite str_length_app. split; [lia|].
    replace (String.length stem + String.length p - String.length p)
      with (String.length stem) by lia.
    rewrite substring_skip. apply substring_whole.
Qed.

(* ------------------------------------------------------------------ *)
(** ** The file filters, by the shape of the name *)

(** X1. A file name is taken by the extension filter exactly when it is
    some stem, a dot and one of the listed extensions, letter for letter. *)
Theorem X1_extension_filter_is_a_suffix_test (c : config) (filename : string) :
  extension_excluded c filename = true <->
  exists ext stem,
    In ext (excluded_extensions c) /\ filename = stem ++ "." ++ ext.
Proof.
  rewrite extension_excluded_true. split.
  - intros [ext [Hin He]]. apply endswith_iff in He. destruct He as [stem ->].
    now exists ext, stem.
  - intros [ext [stem [Hin ->]]]. exists ext. split; [exact Hin|].
    apply endswith_iff. now exists stem.
Qed.

(** X2. A file name without a dot is never taken by the extension
    filter, whatever the list holds: a file called [log] is kept when
    [log] is an excluded extension. *)
Theorem X2_no_dot_no_extension (c : config) (filename : string) :
  PyStr.contains "." filename = false ->
  extension_excluded c filename = false.
Proof.
  intro Hdot. destruct (extension_excluded c filename) eqn:He; [|reflexivity].
  apply extension_excluded_true in He. destruct He as [ext [_ He]].
  apply endswith_iff in He. destruct He as [stem ->].
  assert (H : PyStr.contains "." (stem ++ "." ++ ext) = true)
    by (apply contains_iff; now exists stem, ext).
  congruence.
Qed.

Lemma X2_witness :
  extension_excluded
    (defaults (Sample.args "." (Some ["log"; "py"]) None None None None))
    "log" = false.
Proof. apply X2_no_dot_no_extension. reflexivity. Defined.

(** X3. A file name is taken by the pattern filter exactly when one of
    the listed patterns occurs somewhere inside it. *)
Theorem X3_pattern_filter_is_a_substring_test (c : config) (filename : string) :
  pattern_excluded c filename = true <->
  exists pattern before after,
    In pattern (excluded_file_patterns c)
    /\ filename = before ++ pattern ++ after.
Proof.
  rewrite pattern_excluded_true. split.
  - intros [pattern [Hin Hc]]. apply contains_iff in Hc.
    destruct Hc as [before [after ->]]. now exists pattern, before, after.
  - intros [pattern [before [after [Hin ->]]]]. exists pattern.
    split; [exact Hin|]. apply contains_iff. now exists before, after.
Qed.

(** X4. A file name passes the [included_files] gate exactly when the
    list is empty or one of its strings occurs somewhere inside the
    name. *)
Theorem X4_file_gate_is_a_substring_test (c : config) (filename : string) :
  not_included c filename = false <->
  included_files c = [] \/
  exists pattern before after,
    In pattern (included_files c) /\ filename = before ++ pattern ++ after.
Proof.
  unfold not_included.
  rewrite andb_false_iff, negb_false_iff, existsb_exists. split.
  - intros [Hn|[pattern [Hin Hc]]].
    + left. destruct (included_files c); [reflexivity | discriminate Hn].
    + right. apply contains_iff in Hc. destruct Hc as [before [after ->]].
      now exists pattern, before, after.
  - intros [->|[pattern [before [after [Hin ->]]]]].
    + now left.
    + right. exists pattern. split; [exact Hin|].
      apply contains_iff. now exists before, after.
Qed.

(** X5. An empty string among [included_files] lets every file name
    through that gate, and an empty string among [included_directories]
    opens the directory gate for every directory. *)
Theorem X5_empty_inclusion_string_admits_all (c : config) :
  (In "" (included_files c) ->
     forall filename, not_included c filename = false)
  /\ (In "" (included_directories c) ->
        forall current_dir, directory_not_included c current_dir = false).
Proof.
  split; intros Hin x.
  - unfold not_included. apply andb_false_iff. right.
    apply negb_false_iff, existsb_exists. exists "".
    split; [exact Hin | apply contains_empty].
  - unfold directory_not_included. apply andb_false_iff. right.
    apply negb_false_iff, existsb_exists. exists "".
    split; [exact Hin | apply contains_empty].
Qed.

Lemma X5_witness :
  let c := defaults (Sample.args "." None None (Some ["src"; ""])
                                 (Some ["test_"; ""]) None) in
  not_included c "main.py" = false
  /\ directory_not_included c "./docs" = false.
Proof.
  intro c. split.
  - apply (proj1 (X5_empty_inclusion_string_admits_all c)).
    right. left. reflexivity.
  - apply (proj2 (X5_empty_inclusion_string_admits_all c)).
    right. left. reflexivity.
Defined.

(* ------------------------------------------------------------------ *)
(** ** Pruning is by the exact name *)

Lemma mem_iff (x : string) (l : list string) :
  PyStr.mem x l = true <-> In x l.
Proof.
  unfold PyStr.mem. rewrite existsb_exists. split.
  - intros [y [Hy He]]. apply String.eqb_eq in He. now subst.
  - intro H. exists x. split; [exact H | apply String.eqb_refl].
Qed.

(** X6. After line 61 the walk is left with exactly the subdirectory
    names that are not, as whole strings, in [excluded_directories]; a
    name that only contains an excluded name stays. *)
Theorem X6_pruning_is_exact_match (excluded dirs : list string) (d : string) :
  In d (kept excluded dirs) <-> In d dirs /\ ~ In d excluded.
Proof.
  unfold kept. rewrite filter_In, negb_true_iff.
  pose proof (mem_iff d excluded) as Hm.
  destruct (PyStr.mem d excluded); intuition congruence.
Qed.

(* ------------------------------------------------------------------ *)
(** ** Splitting at the separator *)

Lemma split_nonempty (c : ascii) (s : string) : PyStr.split c s <> [].
Proof.
  destruct s as [|x s]; cbn [PyStr.split]; [discriminate|].
  destruct (Ascii.eqb x c); [discriminate|].
  destruct (PyStr.split c s); discriminate.
Qed.

Lemma split_app_sep (c : ascii) (a b : string) :
  PyStr.split c (a ++ String c b) = (PyStr.split c a ++ PyStr.split c b)%list.
Proof.
  induction a as [|x a IH]; cbn [append PyStr.split].
  - rewrite Ascii.eqb_refl. reflexivity.
  - destruct (Ascii.eqb x c).
    + now rewrite IH.
    + rewrite IH. pose proof (split_nonempty c a) as Hne.
      destruct (PyStr.split c a); [congruence | reflexivity].
Qed.

(** A string without the separator: the first letter is not one, nor is
    any later one. *)
Lemma no_sep_cons (x : ascii) (s : string) :
  PyStr.contains PosixPath.sep (String x s) = false ->
  Ascii.eqb x PosixPath.sep_char = false
  /\ PyStr.contains PosixPath.sep s = false.
Proof.
  cbn [PyStr.contains]. intro H. apply orb_false_iff in H.
  destruct H as [Hp Hc]. split; [|exact Hc].
  destruct (Ascii.eqb_spec x PosixPath.sep_char) as [->|]; [|reflexivity].
  destruct s; discriminate Hp.
Qed.

Lemma split_no_sep (s : string) :
  PyStr.contains PosixPath.sep s = false ->
  PyStr.split PosixPath.sep_char s = [s].
Proof.
  induction s as [|x s IH]; intro H; [reflexivity|].
  apply no_sep_cons in H. destruct H as [Hx Hs].
  cbn [PyStr.split]. rewrite Hx, (IH Hs). reflexivity.
Qed.

Lemma last_app_nonempty {A : Type} (l1 l2 : list A) (d : A) :
  l2 <> [] -> last (l1 ++ l2) d = last l2 d.
Proof.
  intro Hne. induction l1 as [|x l1 IH]; [reflexivity|].
  cbn [app last]. destruct (l1 ++ l2)%list eqn:E; [|exact IH].
  apply app_eq_nil in E. destruct E as [_ E]. congruence.
Qed.

Lemma basename_after_sep (a n : string) :
  PyStr.contains PosixPath.sep n = false ->
  PosixPath.basename (a ++ PosixPath.sep ++ n) = n.
Proof.
  intro Hn. unfold PosixPath.basename, PosixPath.sep. cbn [append].
  change "/"%char with PosixPath.sep_char.
  rewrite split_app_sep, last_app_nonempty by apply split_nonempty.
  now rewrite split_no_sep.
Qed.

Lemma no_sep_not_absolute (n : string) :
  PyStr.contains PosixPath.sep n = false ->
  PyStr.startswith n PosixPath.sep = false.
Proof.
  unfold PyStr.startswith. destruct n; cbn [PyStr.contains]; intro H;
    apply orb_false_iff in H; tauto.
Qed.

(** [join] with a name that has no separator. *)
Lemma join_name (a n : string) :
  PyStr.contains PosixPath.sep n = false ->
  PosixPath.join a n =
  if negb (PyStr.truthy a) || PyStr.endswith a PosixPath.sep then a ++ n
  else a ++ PosixPath.sep ++ n.
Proof.
  intro Hn. unfold PosixPath.join. now rewrite (no_sep_not_absolute n Hn).
Qed.

Lemma basename_join (top name : string) :
  PyStr.contains PosixPath.sep name = false ->
  PosixPath.basename (PosixPath.join top name) = name.
Proof.
  intro Hn. rewrite (join_name top name Hn).
  destruct top as [|x top].
  - cbn [PyStr.truthy negb orb append].
    unfold PosixPath.basename. now rewrite split_no_sep.
  - cbn [PyStr.truthy negb orb].
    destruct (PyStr.endswith (String x top) PosixPath.sep) eqn:He.
    + apply endswith_iff in He. destruct He as [stem ->].
      rewrite append_assoc. now apply basename_after_sep.
    + now apply basename_after_sep.
Qed.

(* ------------------------------------------------------------------ *)
(** ** The directory gate looks at one name *)

(** X7. For a subdirectory the gate of lines 64 to 67 tests the
    subdirectory's own name and nothing of the path above it: the base
    name of [join(top, name)] is [name], so a directory below a matching
    one is not admitted for that reason. *)
Theorem X7_gate_tests_the_own_name (c : config) (top name : string) :
  PyStr.contains PosixPath.sep name = false ->
  PosixPath.basename (PosixPath.join top name) = name
  /\ directory_not_included c (PosixPath.join top name) =
     nonempty (included_directories c)
     && negb (existsb (fun pattern => PyStr.contains pattern name)
                      (included_directories c)).
Proof.
  intro Hn. pose proof (basename_join top name Hn) as Hb.
  split; [exact Hb|]. unfold directory_not_included. now rewrite Hb.
Qed.

(** [utils] below [src] is shut out when only [src] is asked for. *)
Lemma X7_witness :
  let c := defaults (Sample.args "." None None (Some ["src"]) None None) in
  PosixPath.basename (PosixPath.join "./src" "utils") = "utils"
  /\ directory_not_included c (PosixPath.join "./src" "utils") = true.
Proof.
  intro c.
  destruct (X7_gate_tests_the_own_name c "./src" "utils" eq_refl) as [Hb Hg].
  split; [exact Hb|]. rewrite Hg. reflexivity.
Defined.

Lemma contains_in_empty (p : string) :
  PyStr.contains p "" = true -> p = "".
Proof. destruct p; [reflexivity | discriminate]. Qed.

Lemma basename_trailing_sep (p : string) :
  PyStr.endswith p PosixPath.sep = true -> PosixPath.basename p = "".
Proof.
  intro He. apply endswith_iff in He. destruct He as [stem ->].
  unfold PosixPath.basename, PosixPath.sep.
  change "/"%char with PosixPath.sep_char.
  rewrite split_app_sep. apply last_last.
Qed.

(** X8. A root given with a trailing separator has the empty base name.
    With a non-empty [included_directories] that does not hold the empty
    string, the gate is then shut on the root, and the files that lie
    directly in it never reach the file loop. *)
Theorem X8_trailing_separator_shuts_the_root
  (c : config) (files : list string) (entries : list (string * tree)) :
  PyStr.endswith (root_directory c) PosixPath.sep = true ->
  included_directories c <> [] ->
  ~ In "" (included_directories c) ->
  PosixPath.basename (root_directory c) = ""
  /\ directory_not_included c (root_directory c) = true
  /\ candidates c (root_directory c) (Dir files entries) =
     candidates c (root_directory c) (Dir [] entries).
Proof.
  intros He Hne Hno.
  pose proof (basename_trailing_sep _ He) as Hb.
  assert (Hg : directory_not_included c (root_directory c) = true).
  { apply directory_not_included_true. split; [exact Hne|].
    intros pattern Hin. rewrite Hb.
    destruct (PyStr.contains pattern "") eqn:Hc; [|reflexivity].
    apply contains_in_empty in Hc. subst. contradiction. }
  split; [exact Hb|]. split; [exact Hg|].
  now apply candidates_gate_shut.
Qed.

Lemma X8_witness :
  let c := defaults (Sample.args "src/" None None (Some ["src"]) None None) in
  PosixPath.basename (root_directory c) = ""
  /\ directory_not_included c (root_directory c) = true
  /\ candidates c (root_directory c) (Dir ["a.py"] []) =
     candidates c (root_directory c) (Dir [] []).
Proof.
  intro c. apply (X8_trailing_separator_shuts_the_root c).
  - reflexivity.
  - discriminate.
  - intros [H|[]]. discriminate H.
Defined.

(* ------------------------------------------------------------------ *)
(** ** [normpath] and [relpath] on the paths of the walk *)

Lemma is_name_true (n : string) :
  is_name n = true ->
  n <> "" /\ n <> PosixPath.curdir /\ n <> PosixPath.pardir
  /\ PyStr.contains PosixPath.sep n = false.
Proof.
  unfold is_name. rewrite !andb_true_iff, !negb_true_iff.
  intros [[[Ht Hc] Hp] Hs]. repeat split.
  - now apply truthy_true.
  - now apply String.eqb_neq.
  - now apply String.eqb_neq.
  - exact Hs.
Qed.

Lemma name_kept_component (n : string) : is_name n = true -> kept_component n.
Proof. intro H. apply is_name_true in H. split; tauto. Qed.

Lemma norm_comps_snoc (abs : bool) (n : string) (l : list string) :
  is_name n = true ->
  forall acc,
    PosixPath.norm_comps abs (l ++ [n]) acc =
    (PosixPath.norm_comps abs l acc ++ [n])%list.
Proof.
  intro Hn. apply is_name_true in Hn. destruct Hn as [H0 [H1 [H2 _]]].
  induction l as [|x l IH]; intro acc; cbn [app PosixPath.norm_comps].
  - apply String.eqb_neq in H0, H1, H2. rewrite H0, H1, H2. reflexivity.
  - destruct (_ || _); [apply IH|]. destruct (_ || _); apply IH.
Qed.

Lemma norm_comps_snoc_empty (abs : bool) (l : list string) :
  forall acc,
    PosixPath.norm_comps abs (l ++ [""]) acc = PosixPath.norm_comps abs l acc.
Proof.
  induction l as [|x l IH]; intro acc; cbn [app PosixPath.norm_comps].
  - reflexivity.
  - destruct (_ || _); [apply IH|]. destruct (_ || _); apply IH.
Qed.

Lemma no_sep_cons_intro (x : ascii) (s : string) :
  Ascii.eqb x PosixPath.sep_char = false ->
  PyStr.contains PosixPath.sep s = false ->
  PyStr.contains PosixPath.sep (String x s) = false.
Proof.
  intros Hx Hs. cbn [PyStr.contains]. rewrite Hs, orb_false_r.
  unfold PosixPath.sep. cbn [String.prefix].
  destruct (ascii_dec "/" x) as [<-|]; [|reflexivity].
  discriminate Hx.
Qed.

Lemma split_without_sep (s : string) :
  Forall (fun comp => PyStr.contains PosixPath.sep comp = false)
         (PyStr.split PosixPath.sep_char s).
Proof.
  induction s as [|x s IH]; cbn [PyStr.split].
  - constructor; [reflexivity | constructor].
  - destruct (Ascii.eqb x PosixPath.sep_char) eqn:Hx.
    + constructor; [reflexivity | exact IH].
    + destruct (PyStr.split PosixPath.sep_char s) as [|comp comps].
      * constructor; [|constructor]. now apply no_sep_cons_intro.
      * inversion IH; subst. constructor; [|assumption].
        now apply no_sep_cons_intro.
Qed.

Lemma Forall_removelast {A : Type} (P : A -> Prop) (l : list A) :
  Forall P l -> Forall P (removelast l).
Proof.
  induction 1 as [|x l Hx Hl IH]; cbn [removelast]; [constructor|].
  destruct l; [constructor | now constructor].
Qed.

Lemma norm_comps_kept (abs : bool) (comps : list string) :
  Forall (fun comp => PyStr.contains PosixPath.sep comp = false) comps ->
  forall acc,
    Forall kept_component acc ->
    Forall kept_component (PosixPath.norm_comps abs comps acc).
Proof.
  induction 1 as [|x l Hx _ IH]; intros acc Hacc; cbn [PosixPath.norm_comps].
  - exact Hacc.
  - destruct (String.eqb x "") eqn:He; cbn [orb]; [now apply IH|].
    destruct (String.eqb x PosixPath.curdir); [now apply IH|].
    destruct (_ || _).
    + apply IH. apply Forall_app. split; [exact Hacc|].
      constructor; [|constructor]. split; [|exact Hx].
      now apply String.eqb_neq.
    + apply IH. now apply Forall_removelast.
Qed.

Lemma concat_cons (x : string) (l : list string) :
  l <> [] ->
  String.concat PosixPath.sep (x :: l) =
  x ++ PosixPath.sep ++ String.concat PosixPath.sep l.
Proof. destruct l; [congruence | reflexivity]. Qed.

Lemma split_concat (l : list string) :
  Forall kept_component l -> l <> [] ->
  PyStr.split PosixPath.sep_char (String.concat PosixPath.sep l) = l.
Proof.
  induction 1 as [|x l [_ Hx] Hl IH]; intro Hne; [congruence|].
  destruct l as [|y l].
  - cbn [String.concat]. now apply split_no_sep.
  - rewrite concat_cons by discriminate.
    unfold PosixPath.sep at 1. cbn [append].
    change "/"%char with PosixPath.sep_char.
    rewrite split_app_sep, split_no_sep by exact Hx.
    rewrite IH by discriminate. reflexivity.
Qed.

Lemma lstrip_mul (n : nat) (s : string) :
  PyStr.lstrip PosixPath.sep_char (PyStr.mul PosixPath.sep n ++ s) =
  PyStr.lstrip PosixPath.sep_char s.
Proof. induction n as [|n IH]; [reflexivity | exact IH]. Qed.

Lemma lstrip_kept (x s : string) :
  kept_component x -> PyStr.lstrip PosixPath.sep_char (x ++ s) = x ++ s.
Proof.
  intros [Hne Hx]. destruct x as [|a x]; [congruence|].
  apply no_sep_cons in Hx. destruct Hx as [Ha _].
  cbn [append PyStr.lstrip]. now rewrite Ha.
Qed.

Lemma concat_starts_with_head (x : string) (l : list string) :
  exists s, String.concat PosixPath.sep (x :: l) = x ++ s.
Proof.
  destruct l as [|y l].
  - exists "". cbn [String.concat]. now rewrite append_nil_r.
  - eexists. reflexivity.
Qed.

Lemma absolute_nonempty (p : string) : PosixPath.isabs p = true -> p <> "".
Proof. destruct p; [discriminate | discriminate]. Qed.

Lemma startswith_app (a b p : string) :
  PyStr.startswith a p = true -> PyStr.startswith (a ++ b) p = true.
Proof.
  unfold PyStr.startswith. rewrite !prefix_iff. intros [rest ->].
  exists (rest ++ b). now rewrite append_assoc.
Qed.

Lemma startswith_sep_app (a b : string) :
  a <> "" ->
  PyStr.startswith (a ++ b) PosixPath.sep = PyStr.startswith a PosixPath.sep.
Proof.
  intro Ha. destruct a as [|x a]; [congruence|].
  unfold PyStr.startswith, PosixPath.sep. cbn [append String.prefix].
  destruct (ascii_dec "/" x); [|reflexivity].
  destruct (a ++ b); destruct a; reflexivity.
Qed.

Lemma endswith_sep_app (a b : string) :
  b <> "" ->
  PyStr.endswith (a ++ b) PosixPath.sep = PyStr.endswith b PosixPath.sep.
Proof.
  intro Hb.
  destruct (PyStr.endswith b PosixPath.sep) eqn:He.
  - apply endswith_iff in He. destruct He as [stem ->].
    apply endswith_iff. exists (a ++ stem). now rewrite append_assoc.
  - destruct (PyStr.endswith (a ++ b) PosixPath.sep) eqn:Hab; [|reflexivity].
    rewrite <- He. symmetry.
    apply endswith_iff in Hab. destruct Hab as [stem Hst].
    apply endswith_iff.
    (* the last letter of [a ++ b] is the last letter of [b] *)
    clear He. revert a stem Hst.
    induction b as [|y b IH]; [congruence|]. intros a stem Hst.
    destruct b as [|z b].
    + assert (Hlast : forall (u v : string) (p q : ascii),
                u ++ String p "" = v ++ String q "" -> p = q).
      { induction u as [|c u IHu]; intros v p q H.
        - destruct v as [|d v]; [now injection H|].
          destruct v; discriminate H.
        - destruct v as [|d v].
          + destruct u; discriminate H.
          + injection H as _ H. now apply IHu in H. }
      apply Hlast in Hst. subst y. now exists "".
    + destruct (IH ltac:(discriminate) (a ++ String y "") stem) as [stem' Hs'].
      * rewrite append_assoc. exact Hst.
      * exists (String y stem'). cbn [append]. now rewrite Hs'.
Qed.

Lemma anchor_absolute (cwd p : string) :
  PosixPath.isabs cwd = true -> PosixPath.isabs (anchor cwd p) = true.
Proof.
  intro Hc. unfold anchor.
  destruct (PosixPath.isabs p) eqn:Hp; [exact Hp|].
  unfold PosixPath.join. unfold PosixPath.isabs in Hp. rewrite Hp.
  destruct (_ || _); now apply startswith_app.
Qed.

Lemma join_name_nonempty (a n : string) :
  a <> "" -> PyStr.contains PosixPath.sep n = false ->
  PosixPath.join a n =
  a ++ (if PyStr.endswith a PosixPath.sep then "" else PosixPath.sep) ++ n.
Proof.
  intros Ha Hn. rewrite join_name by exact Hn.
  apply truthy_true in Ha. rewrite Ha. cbn [negb orb].
  destruct (PyStr.endswith a PosixPath.sep); reflexivity.
Qed.

Lemma anchor_join (cwd a n : string) :
  PosixPath.isabs cwd = true -> a <> "" ->
  PyStr.contains PosixPath.sep n = false ->
  anchor cwd (PosixPath.join a n) = PosixPath.join (anchor cwd a) n.
Proof.
  intros Hc Ha Hn. unfold anchor, PosixPath.isabs.
  rewrite (@join_name_nonempty a n Ha Hn), startswith_sep_app by exact Ha.
  destruct (PyStr.startswith a PosixPath.sep) eqn:Habs.
  - now rewrite (@join_name_nonempty a n Ha Hn).
  - assert (Hca : PosixPath.join cwd a <> "")
      by (apply join_nonempty; now apply absolute_nonempty).
    rewrite (@join_name_nonempty (PosixPath.join cwd a) n Hca Hn).
    unfold PosixPath.join. rewrite Habs.
    rewrite startswith_sep_app, Habs by exact Ha.
    destruct (negb (PyStr.truthy cwd) || PyStr.endswith cwd PosixPath.sep).
    + rewrite endswith_sep_app by exact Ha. now rewrite !append_assoc.
    + rewrite <- (append_assoc cwd PosixPath.sep a).
      rewrite (@endswith_sep_app (cwd ++ PosixPath.sep) a Ha).
      now rewrite !append_assoc.
Qed.

(** The components [relpath] compares, for an absolute path. *)
Lemma tail_of_normpath (p : string) :
  PosixPath.isabs p = true ->
  (let t := PyStr.lstrip PosixPath.sep_char (PosixPath.normpath p) in
   if PyStr.truthy t then PyStr.split PosixPath.sep_char t else [])
  = PosixPath.norm_comps true (PyStr.split PosixPath.sep_char p) [].
Proof.
  intro Habs. cbv zeta. unfold PosixPath.normpath.
  pose proof (absolute_nonempty p Habs) as Hne.
  apply truthy_true in Hne. rewrite Hne. cbn [negb].
  assert (Hn : exists k, PosixPath.initial_slashes p = S k).
  { unfold PosixPath.initial_slashes. unfold PosixPath.isabs in Habs.
    rewrite Habs. destruct (_ && _); eauto. }
  destruct Hn as [k Hk]. rewrite Hk.
  change (Nat.ltb 0 (S k)) with true.
  assert (Hkept : Forall kept_component
            (PosixPath.norm_comps true (PyStr.split PosixPath.sep_char p) []))
    by (apply norm_comps_kept; [apply split_without_sep | constructor]).
  set (comps := PosixPath.norm_comps true (PyStr.split PosixPath.sep_char p) [])
    in *.
  assert (Ht : PyStr.truthy
                 (PyStr.mul PosixPath.sep (S k)
                  ++ String.concat PosixPath.sep comps) = true) by reflexivity.
  rewrite Ht, lstrip_mul.
  destruct comps as [|x l]; [reflexivity|].
  destruct (concat_starts_with_head x l) as [s Hs].
  inversion Hkept as [|? ? Hx Hl]; subst.
  rewrite Hs, lstrip_kept by exact Hx. rewrite <- Hs.
  assert (Hsome : PyStr.truthy (String.concat PosixPath.sep (x :: l)) = true).
  { rewrite Hs. destruct Hx as [Hx _]. destruct x; [congruence | reflexivity]. }
  rewrite Hsome. apply split_concat; [exact Hkept | discriminate].
Qed.

Lemma tail_list_anchor (cwd p : string) :
  PosixPath.isabs cwd = true ->
  PosixPath.tail_list cwd p =
  PosixPath.norm_comps true (PyStr.split PosixPath.sep_char (anchor cwd p)) [].
Proof.
  intro Hc. unfold PosixPath.tail_list, PosixPath.abspath.
  fold (anchor cwd p). apply tail_of_normpath. now apply anchor_absolute.
Qed.

Lemma comps_join (p n : string) :
  p <> "" -> is_name n = true ->
  PosixPath.norm_comps true
    (PyStr.split PosixPath.sep_char (PosixPath.join p n)) [] =
  (PosixPath.norm_comps true (PyStr.split PosixPath.sep_char p) [] ++ [n])%list.
Proof.
  intros Hp Hn. pose proof (is_name_true n Hn) as [_ [_ [_ Hs]]].
  rewrite (@join_name_nonempty p n Hp Hs).
  destruct (PyStr.endswith p PosixPath.sep) eqn:He.
  - apply endswith_iff in He. destruct He as [stem ->].
    rewrite append_assoc. unfold PosixPath.sep. cbn [append].
    change "/"%char with PosixPath.sep_char.
    rewrite !split_app_sep, (split_no_sep n Hs).
    cbn [PyStr.split].
    now rewrite norm_comps_snoc, norm_comps_snoc_empty.
  - unfold PosixPath.sep. cbn [append].
    change "/"%char with PosixPath.sep_char.
    rewrite split_app_sep, (split_no_sep n Hs).
    now rewrite norm_comps_snoc.
Qed.

Lemma tail_list_join (cwd a n : string) :
  PosixPath.isabs cwd = true -> a <> "" -> is_name n = true ->
  PosixPath.tail_list cwd (PosixPath.join a n) =
  (PosixPath.tail_list cwd a ++ [n])%list.
Proof.
  intros Hc Ha Hn. pose proof (is_name_true n Hn) as [_ [_ [_ Hs]]].
  rewrite !tail_list_anchor by exact Hc.
  rewrite anchor_join by assumption.
  apply comps_join; [|exact Hn].
  apply absolute_nonempty. now apply anchor_absolute.
Qed.

Lemma below_nonempty (names : list string) :
  forall root, root <> "" -> below root names <> "".
Proof.
  unfold below. induction names as [|n names IH]; intros root Hr; [exact Hr|].
  cbn [fold_left]. apply IH. now apply join_nonempty.
Qed.

Lemma below_snoc (root : string) (names : list string) (n : string) :
  below root (names ++ [n]) = PosixPath.join (below root names) n.
Proof. unfold below. now rewrite fold_left_app. Qed.

Lemma tail_list_below (cwd : string) (names : list string) :
  PosixPath.isabs cwd = true ->
  Forall (fun n => is_name n = true) names ->
  forall root,
    root <> "" ->
    PosixPath.tail_list cwd (below root names) =
    (PosixPath.tail_list cwd root ++ names)%list.
Proof.
  intros Hc. induction 1 as [|n names Hn _ IH]; intros root Hr.
  - cbn. now rewrite app_nil_r.
  - unfold below. cbn [fold_left]. fold (below (PosixPath.join root n) names).
    rewrite IH by now apply join_nonempty.
    rewrite tail_list_join by assumption.
    now rewrite <- app_assoc.
Qed.

Lemma common_len_app (l1 l2 : list string) :
  PosixPath.common_len l1 (l1 ++ l2) = List.length l1.
Proof.
  induction l1 as [|x l1 IH]; cbn [app PosixPath.common_len List.length].
  - destruct l2; reflexivity.
  - now rewrite String.eqb_refl, IH.
Qed.

(** From the root down through names, [relpath] gives the names back,
    joined by the separator. *)
Lemma relpath_below (cwd root : string) (names : list string) :
  PosixPath.isabs cwd = true -> root <> "" ->
  Forall (fun n => is_name n = true) names -> names <> [] ->
  PosixPath.relpath cwd (below root names) root =
  Some (String.concat PosixPath.sep names).
Proof.
  intros Hc Hr Hn Hne. unfold PosixPath.relpath.
  pose proof (below_nonempty names root Hr) as Hb. apply truthy_true in Hb.
  rewrite Hb. cbn [negb]. cbv zeta.
  rewrite tail_list_below by assumption.
  rewrite common_len_app, Nat.sub_diag. cbn [repeat app].
  rewrite skipn_app, skipn_all, Nat.sub_diag. cbn [skipn app].
  destruct names; [congruence | reflexivity].
Qed.

(* ------------------------------------------------------------------ *)
(** ** The labels of the blocks *)

Lemma map_flat_map_comm {A B C : Type} (f : B -> C) (g : A -> list B)
  (l : list A) :
  map f (flat_map g l) = flat_map (fun x => map f (g x)) l.
Proof.
  induction l as [|x l IH]; cbn [flat_map map]; [reflexivity|].
  now rewrite map_app, IH.
Qed.

Lemma flat_map_map_comm {A B C : Type} (f : A -> B) (g : B -> list C)
  (l : list A) :
  flat_map g (map f l) = flat_map (fun x => g (f x)) l.
Proof.
  induction l as [|x l IH]; cbn [flat_map map]; [reflexivity|].
  now rewrite IH.
Qed.

Lemma scandir_comm {R R' : Type} (h : R -> R') (f : tree -> R) (absent : R)
  (d : string) (entries : list (string * tree)) :
  h (scandir f absent d entries) =
  scandir (fun t' => h (f t')) (h absent) d entries.
Proof.
  induction entries as [|[name t'] l IH]; cbn [scandir]; [reflexivity|].
  destruct (String.eqb name d); [reflexivity | exact IH].
Qed.

Lemma scandir_ext_Forall {R : Type} (f g : tree -> R) (absent : R)
  (d : string) (entries : list (string * tree)) :
  Forall (fun e => f (snd e) = g (snd e)) entries ->
  scandir f absent d entries = scandir g absent d entries.
Proof.
  induction 1 as [|[name t'] l Ht' _ IH]; cbn [scandir]; [reflexivity|].
  destruct (String.eqb name d); [exact Ht' | exact IH].
Qed.

(** The path of a visited directory is the root joined with the names
    that lead to it. *)
Lemma visits_named (excluded : list string) (root : string) (t : tree) :
  forall names,
    visits excluded (below root names) t =
    map (fun v => (below root (fst v), snd v))
        (named_visits excluded names t).
Proof.
  induction t as [|nondirs entries IH] using tree_ind; intro names.
  - reflexivity.
  - cbn [visits named_visits map fst snd]. f_equal.
    rewrite map_flat_map_comm. apply flat_map_ext. intro d.
    rewrite (scandir_comm
               (map (fun v : list string * list string =>
                       (below root (fst v), snd v)))).
    cbn [map]. apply scandir_ext_Forall.
    eapply Forall_impl; [|exact IH]. intros e He.
    rewrite <- below_snoc. apply He.
Qed.

Lemma candidates_named (c : config) (root : string) (t : tree) :
  candidates c root t =
  map (fun y => (below root (fst y), snd y)) (named_candidates c root t).
Proof.
  unfold candidates, named_candidates.
  change root with (below root []) at 1.
  rewrite visits_named, flat_map_map_comm, map_flat_map_comm.
  apply flat_map_ext. intros [names files]. cbn [fst snd].
  destruct (directory_not_included c (below root names)); [reflexivity|].
  rewrite map_map. reflexivity.
Qed.

Lemma proper_entries_true (deeper : tree -> bool)
  (entries : list (string * tree)) :
  proper_entries deeper entries = true ->
  Forall (fun e => is_name (fst e) = true /\ deeper (snd e) = true) entries.
Proof.
  induction entries as [|[name t'] l IH]; cbn [proper_entries]; intro H.
  - constructor.
  - apply andb_true_iff in H. destruct H as [H Hl].
    apply andb_true_iff in H. destruct H as [Hn Ht].
    constructor; [now split | now apply IH].
Qed.

Lemma named_visits_proper (excluded : list string) (t : tree) :
  proper_names t = true ->
  forall names,
    Forall (fun n => is_name n = true) names ->
    Forall (fun v => Forall (fun n => is_name n = true) (fst v)
                     /\ Forall (fun n => is_name n = true) (snd v))
           (named_visits excluded names t).
Proof.
  induction t as [|nondirs entries IH] using tree_ind; intros Hp names Hn.
  - constructor.
  - cbn [proper_names] in Hp. apply andb_true_iff in Hp.
    destruct Hp as [Hf He]. apply proper_entries_true in He.
    cbn [named_visits]. constructor.
    + split; [exact Hn|]. apply Forall_forall.
      exact (proj1 (forallb_forall is_name nondirs) Hf).
    + apply Forall_flat_map. apply Forall_forall. intros d Hd.
      assert (Hdn : is_name d = true).
      { apply filter_In in Hd. destruct Hd as [Hd _].
        apply in_map_iff in Hd. destruct Hd as [e [<- Hin]].
        rewrite Forall_forall in He. now apply He. }
      apply scandir_Forall.
      rewrite Forall_forall in IH, He. apply Forall_forall. intros e Hin.
      apply IH; [exact Hin | now apply He |].
      apply Forall_app. split; [exact Hn | now constructor].
Qed.

Lemma named_candidates_proper (c : config) (root : string) (t : tree) :
  proper_names t = true ->
  Forall (fun y => Forall (fun n => is_name n = true) (fst y ++ [snd y]))
         (named_candidates c root t).
Proof.
  intro Hp. unfold named_candidates. apply Forall_flat_map.
  eapply Forall_impl;
    [|apply (named_visits_proper (excluded_directories c) t Hp []); constructor].
  intros [names files] [Hn Hf]. cbn [fst snd] in *.
  destruct (directory_not_included c (below root names)); [constructor|].
  apply Forall_map. eapply Forall_impl; [|exact Hf].
  intros f Hfn. cbn [fst snd]. apply Forall_app. split; [exact Hn|].
  now constructor.
Qed.

Lemma filter_map_comm {A B : Type} (p : B -> bool) (g : A -> B) (l : list A) :
  filter p (map g l) = map g (filter (fun x => p (g x)) l).
Proof.
  induction l as [|x l IH]; cbn [map filter]; [reflexivity|].
  destruct (p (g x)); cbn [map]; now rewrite IH.
Qed.

Lemma relative_path_named (c : config) (w : world) (y : list string * string) :
  PosixPath.isabs (getcwd w) = true ->
  root_directory c <> "" ->
  Forall (fun n => is_name n = true) (fst y ++ [snd y]) ->
  relative_path c w (file_path (below (root_directory c) (fst y), snd y))
  = label y.
Proof.
  intros Hc Hr Hn. unfold relative_path, file_path, label. cbn [fst snd].
  rewrite <- below_snoc, relpath_below; try assumption.
  - reflexivity.
  - destruct (fst y); discriminate.
Qed.

(** X9. In a process whose working directory is an absolute path, for a
    non-empty root and a listing whose names are names, the path written
    after [File: ] and [Processing: ] is the chain of names from the root
    down to the file, joined by [/]: it does not depend on the working
    directory or on how the root was spelled. *)
Theorem X9_labels_are_the_names_below_the_root
  (c : config) (w : world) (t : tree) :
  PosixPath.isabs (getcwd w) = true ->
  root_directory c <> "" ->
  proper_names t = true ->
  map (fun x => relative_path c w (file_path x))
      (survivors c (root_directory c) t)
  = map label
        (filter (fun y => survives c (snd y))
                (named_candidates c (root_directory c) t))
  /\ map (progress_line c w) (survivors c (root_directory c) t)
     = map (fun y => "Processing: " ++ label y)
           (filter (fun y => survives c (snd y))
                   (named_candidates c (root_directory c) t)).
Proof.
  intros Hc Hr Hp.
  assert (Heach : forall y,
            In y (filter (fun y => survives c (snd y))
                         (named_candidates c (root_directory c) t)) ->
            relative_path c w
              (file_path (below (root_directory c) (fst y), snd y)) = label y).
  { intros y Hy. apply filter_In in Hy. destruct Hy as [Hy _].
    apply relative_path_named; try assumption.
    pose proof (named_candidates_proper c (root_directory c) t Hp) as H.
    rewrite Forall_forall in H. now apply H. }
  unfold survivors. rewrite candidates_named, filter_map_comm. cbn [snd].
  rewrite !map_map. split; apply map_ext_in; intros y Hy.
  - now apply Heach.
  - unfold progress_line. now rewrite Heach.
Qed.

Lemma X9_witness :
  let c := defaults (Sample.args "../proj/" (Some ["log"])
                                 (Some ["node_modules"]) None None None) in
  let w := Sample.world_of Sample.project "" in
  map (fun x => relative_path c w (file_path x))
      (survivors c (root_directory c) Sample.project)
  = ["a.py"; "src/m.py"; "src/deep/z.py"].
Proof.
  intros c w.
  rewrite (proj1 (X9_labels_are_the_names_below_the_root c w Sample.project
                    eq_refl ltac:(discriminate) eq_refl)).
  reflexivity.
Defined.

(* ------------------------------------------------------------------ *)
(** ** What the run never reads *)

Lemma fold_left_ext_In {A B : Type} (f g : A -> B -> A) (l : list B) :
  (forall b, In b l -> forall a, f a b = g a b) ->
  forall a, fold_left f l a = fold_left g l a.
Proof.
  induction l as [|b l IH]; intros H a; cbn [fold_left]; [reflexivity|].
  rewrite (H b (or_introl eq_refl)). apply IH.
  intros b' Hb'. apply H. now right.
Qed.

(** X10. Only the files that pass the directory gate and the three file
    filters are ever opened: if the answers to the reads are changed for
    every other path, the run is the same, output, console and counters. *)
Theorem X10_filtered_files_are_never_read
  (a : arguments) (w : world) (answers : string -> string -> read_result) :
  (forall x,
     In x (survivors (defaults a) (root_directory (defaults a))
                     (walk_root (defaults a) w)) ->
     forall written,
       answers (file_path x) written = read_file w (file_path x) written) ->
  concatenate_directory_tree a (with_reads w answers) =
  concatenate_directory_tree a w.
Proof.
  intro Hsame.
  assert (Hafter : after_walk (defaults a) (with_reads w answers) =
                   after_walk (defaults a) w).
  { unfold after_walk.
    change (walk_root (defaults a) (with_reads w answers))
      with (walk_root (defaults a) w).
    apply fold_left_ext_In. intros x Hx st. unfold step.
    destruct (survives (defaults a) (snd x)) eqn:Hs; [|reflexivity].
    unfold emitted, relative_path. cbn [read_file getcwd with_reads].
    rewrite Hsame; [reflexivity|].
    unfold survivors. apply filter_In. now split. }
  rewrite !run_spec. cbn [open_for_writing with_reads].
  destruct (open_for_writing w (arg_output_path a)); [reflexivity|].
  destruct (PyStr.contains nul (arg_root_directory a)); [reflexivity|].
  change (first_refused (defaults a) (with_reads w answers)
            (candidates (defaults a) (arg_root_directory a)
               (walk_root (defaults a) (with_reads w answers))))
    with (first_refused (defaults a) w
            (candidates (defaults a) (arg_root_directory a)
               (walk_root (defaults a) w))).
  destruct (first_refused _ _ _); [reflexivity|].
  rewrite Hafter. reflexivity.
Qed.

(** The log file is filtered out; what reading it would give is of no
    consequence. *)
Lemma X10_witness :
  let a := Sample.args "." (Some ["log"]) (Some ["node_modules"])
                       None None None in
  let w := Sample.world_of Sample.project "" in
  concatenate_directory_tree a
    (with_reads w (fun p written => if String.eqb p "./b.log"
                                    then inr "Input/output error"
                                    else read_file w p written))
  = concatenate_directory_tree a w.
Proof.
  intros a w. apply X10_filtered_files_are_never_read.
  intros x Hx written. vm_compute in Hx.
  destruct Hx as [<-|[<-|[<-|[]]]]; reflexivity.
Defined.

(* ------------------------------------------------------------------ *)
(** ** No file filter *)

Lemma survives_without_filters (c : config) (filename : string) :
  excluded_extensions c = [] -> excluded_file_patterns c = [] ->
  included_files c = [] ->
  survives c filename = true.
Proof.
  intros He Hp Hi.
  unfold survives, extension_excluded, pattern_excluded, not_included.
  now rewrite He, Hp, Hi.
Qed.

(** X11. With no excluded extension, no excluded pattern and no
    [included_files], no file name is skipped by name: every file name
    listed in a visited directory that passes the directory gate has its
    block in the output, once and in the order of the walk, and
    [files_skipped] counts the failed reads only. *)
Theorem X11_without_file_filters_every_file_is_emitted
  (a : arguments) (w : world) (st : state) :
  let c := defaults a in
  let listed := candidates c (root_directory c) (walk_root c w) in
  excluded_extensions c = [] -> excluded_file_patterns c = [] ->
  included_files c = [] ->
  concatenate_directory_tree a w = ret st ->
  map fst (transcript c w "" listed) = listed
  /\ output st = concat_all (map (block c w) (transcript c w "" listed))
  /\ files_processed st =
     List.length (filter read_ok (transcript c w "" listed))
  /\ files_skipped st =
     List.length (filter (fun e => negb (read_ok e))
                         (transcript c w "" listed)).
Proof.
  intros c listed He Hp Hi Hrun. apply run_returns in Hrun. subst st.
  fold c.
  assert (Hall : survivors c (root_directory c) (walk_root c w) = listed).
  { unfold survivors. apply filter_all. intro x.
    now apply survives_without_filters. }
  assert (Hnone : filtered_out c (root_directory c) (walk_root c w) = []).
  { unfold filtered_out. apply filter_none. intro x.
    now rewrite survives_without_filters. }
  split; [|split; [|split]].
  - apply transcript_files.
  - cbn [summarised output print]. now rewrite after_walk_output, Hall.
  - cbn [summarised files_processed print].
    now rewrite after_walk_processed, Hall.
  - cbn [summarised files_skipped print].
    now rewrite after_walk_skipped, Hall, Hnone.
Qed.

Lemma X11_witness :
  let a := Sample.args "." None (Some ["node_modules"]) None None None in
  let w := Sample.world_of Sample.project "./b.log" in
  exists st,
    concatenate_directory_tree a w = ret st
    /\ files_processed st = 3 /\ files_skipped st = 1.
Proof.
  intros a w.
  exists (summarised (defaults a) (after_walk (defaults a) w)).
  assert (Hrun : concatenate_directory_tree a w =
                 ret (summarised (defaults a) (after_walk (defaults a) w)))
    by (vm_compute; reflexivity).
  split; [exact Hrun|].
  destruct (X11_without_file_filters_every_file_is_emitted a w _
              eq_refl eq_refl eq_refl Hrun) as [_ [_ [Hp Hs]]].
  rewrite Hp, Hs. split; vm_compute; reflexivity.
Defined.

(* ------------------------------------------------------------------ *)
(** ** A root that cannot be listed *)



(* ------------------------------------------------------------------ *)
(** ** The order of the walk *)

Lemma flat_map_flat_map_comm {A B C : Type} (f : A -> list B)
  (g : B -> list C) (l : list A) :
  flat_map g (flat_map f l) = flat_map (fun x => flat_map g (f x)) l.
Proof.
  induction l as [|x l IH]; cbn [flat_map]; [reflexivity|].
  now rewrite flat_map_app, IH.
Qed.

(** X13. The walk is in pre-order. On a directory the loop of the source
    first runs the file loop on the files of the directory itself, when
    its gate is open, and then descends into the remaining
    subdirectories one after the other; the whole walk of a listing is
    the file loop run on the sequence of its candidates, which has the
    files of a directory before everything below its first remaining
    subdirectory, that before everything below the second, and so on. *)
Theorem X13_files_before_subdirectories
  (c : config) (w : world) (top : string) (files : list string)
  (entries : list (string * tree)) (st : state) :
  os_walk (visit_directory c w) top (Dir files entries) st =
    bind (if directory_not_included c top then ret st
          else for_each (process_file c w top) files st)
         (for_each (descend (visit_directory c w) top entries)
                   (kept (excluded_directories c) (map fst entries)))
  /\ os_walk (visit_directory c w) top (Dir files entries) st =
     for_each (fun x => process_file c w (fst x) (snd x))
              (candidates c top (Dir files entries)) st
  /\ candidates c top (Dir files entries) =
     ((if directory_not_included c top then [] else map (pair top) files)
      ++ flat_map
           (fun dirname =>
              scandir (fun t' => candidates c (PosixPath.join top dirname) t')
                      [] dirname entries)
           (kept (excluded_directories c) (map fst entries)))%list.
Proof.
  split; [|split].
  - rewrite os_walk_Dir. unfold visit_directory.
    fold (kept (excluded_directories c) (map fst entries)).
    destruct (directory_not_included c top); [reflexivity|].
    rewrite bind_assoc. reflexivity.
  - rewrite os_walk_visits. apply for_each_candidates.
  - unfold candidates. cbn [visits flat_map fst snd]. f_equal.
    rewrite flat_map_flat_map_comm. apply flat_map_ext. intro d.
    apply (scandir_comm
             (flat_map (fun v : string * list string =>
                          if directory_not_included c (fst v) then []
                          else map (pair (fst v)) (snd v)))).
Qed.

(* ------------------------------------------------------------------ *)
(** ** The script reads its own output *)

(** X14. Run as a script, the program opens [concatenated_output.txt]
    in the directory it then walks, and none of its filters takes that
    name: when the root listing shows the file, the program processes it
    like any other. *)
Theorem X14_main_processes_its_own_output
  (w : world) (files : list string) (entries : list (string * tree))
  (st : state) :
  PosixPath.isabs (getcwd w) = true ->
  fs w = Dir files entries ->
  In "concatenated_output.txt" files ->
  main w = ret st ->
  In "Processing: concatenated_output.txt" (stdout st).
Proof.
  intros Hc Hfs Hin Hrun. unfold main in Hrun.
  apply run_returns in Hrun. subst st.
  rewrite summary_stdout, after_walk_stdout. apply in_or_app. left.
  set (c := defaults main_arguments).
  assert (Hs : In (".", "concatenated_output.txt")
                  (survivors c (root_directory c) (walk_root c w))).
  { unfold survivors. apply filter_In. split; [|vm_compute; reflexivity].
    unfold walk_root. change (PyStr.truthy (root_directory c)) with true.
    cbn iota. rewrite Hfs. unfold candidates.
    cbn [visits flat_map fst snd]. apply in_or_app. left.
    change (directory_not_included c (root_directory c)) with false.
    cbn iota. apply in_map_iff. now exists "concatenated_output.txt". }
  apply in_map_iff. exists (".", "concatenated_output.txt").
  split; [|exact Hs].
  assert (Hrel : relative_path c w (file_path (".", "concatenated_output.txt"))
                 = "concatenated_output.txt").
  { apply (relative_path_named c w ([], "concatenated_output.txt") Hc).
    - discriminate.
    - constructor; [reflexivity | constructor]. }
  unfold progress_line. now rewrite Hrel.
Qed.

Lemma X14_witness :
  exists st,
    main (Sample.world_of (Dir ["a.py"; "concatenated_output.txt"] []) "")
      = ret st
    /\ In "Processing: concatenated_output.txt" (stdout st).
Proof.
  set (w := Sample.world_of (Dir ["a.py"; "concatenated_output.txt"] []) "").
  exists (summarised (defaults main_arguments)
                     (after_walk (defaults main_arguments) w)).
  assert (Hrun : main w =
                 ret (summarised (defaults main_arguments)
                                 (after_walk (defaults main_arguments) w)))
    by (vm_compute; reflexivity).
  split; [exact Hrun|].
  apply (X14_main_processes_its_own_output w
           ["a.py"; "concatenated_output.txt"] [] _ eq_refl eq_refl).
  - right. left. reflexivity.
  - exact Hrun.
Defined.
